(** * Brain tumour detection app: media intake, detector gateway, result normaliser

    A shallow embedding of [app.py].  The Python functions that carry
    behaviour of their own ([load_model], [extract_frame_from_video], the
    detection loop and the display sort of [main]) are written as Rocq
    functions.  Everything they call in third-party libraries (tempfile,
    OpenCV, PIL, ultralytics, Streamlit's cache decorator) is an explicit
    parameter: a record of oracles that say, for each call, whether it
    returns or raises. *)

From Stdlib Require Import ZArith String List Permutation Sorted.
From Stdlib Require Import DecimalString.
From Stdlib Require DecimalZ.
From Stdlib Require SpecFloat.
From stdpp Require Import base option list strings gmap sorting.

Local Open Scope string_scope.
Local Open Scope Z_scope.

(** ** Calls that return or raise *)

(** A Python call either returns a value or raises an [Exception]; the
    payload of [Raises] is [str(e)], the only thing the handlers of
    [app.py] ever read from an exception. *)
Inductive outcome (A : Type) : Type :=
| Returns (a : A)
| Raises (msg : string).
Arguments Returns {A} a.
Arguments Raises {A} msg.

(** ** Interpreter state *)

Record State := mkState {
  fs : gset string;        (* paths that exist on disk *)
  video_path : string;     (* the local variable of extract_frame_from_video *)
  pos_frames : Z;          (* CAP_PROP_POS_FRAMES of the open capture *)
  seeks : list Z           (* positions asked of cap.set so far, latest first *)
}.

Definition M (A : Type) : Type := State -> outcome A * State.

Definition mret_M {A} (a : A) : M A := fun s => (Returns a, s).

Definition mbind_M {A B} (f : A -> M B) (m : M A) : M B :=
  fun s => match m s with
           | (Returns a, s') => f a s'
           | (Raises e, s') => (Raises e, s')
           end.

#[global] Instance M_ret : MRet M := @mret_M.
#[global] Instance M_bind : MBind M := @mbind_M.

(** An oracle answer, lifted into the interpreter. *)
Definition call {A} (o : outcome A) : M A := fun s => (o, s).

(** [try: body  except Exception as e: handler(e)] *)
Definition try_except {A} (body : M A) (handler : string -> M A) : M A :=
  fun s => match body s with
           | (Returns a, s') => (Returns a, s')
           | (Raises e, s') => handler e s'
           end.

(** [with <file> as tmp: body]: the context manager's exit closes the file
    whether the body returned or raised; an exception of the exit itself
    replaces the one of the body. *)
Definition with_exit {A} (exit : M unit) (body : M A) : M A :=
  fun s => match body s with
           | (Returns a, s') =>
               match exit s' with
               | (Returns _, s'') => (Returns a, s'')
               | (Raises e, s'') => (Raises e, s'')
               end
           | (Raises e, s') =>
               match exit s' with
               | (Returns _, s'') => (Raises e, s'')
               | (Raises e', s'') => (Raises e', s'')
               end
           end.

Definition get_video_path : M string := fun s => (Returns (video_path s), s).

Definition set_video_path (p : string) : M unit :=
  fun s => (Returns tt, mkState (fs s) p (pos_frames s) (seeks s)).

(** [os.path.exists(p)] *)
Definition os_path_exists (p : string) : M bool :=
  fun s => (Returns (bool_decide (p ∈ fs s)), s).

(** [os.unlink(p)].  A missing path raises [FileNotFoundError].  On an
    existing path the operating system decides, and [may_delete p] is its
    answer: the file is removed, or the call raises and the file stays (a
    file the process may not delete, a file something still holds open). *)
Definition os_unlink_in (may_delete : string -> outcome unit) (p : string) : M unit :=
  fun s => if bool_decide (p ∈ fs s)
           then match may_delete p with
                | Returns _ =>
                    (Returns tt,
                     mkState (fs s ∖ {[p]}) (video_path s) (pos_frames s) (seeks s))
                | Raises e => (Raises e, s)
                end
           else (Raises ("[Errno 2] No such file or directory: '" +:+ p +:+ "'"), s).

(** An operating system that never refuses to delete an existing file. *)
Definition always_deletes (p : string) : outcome unit := Returns tt.

(** [os.unlink] under that assumption: it removes an existing path and
    raises on a missing one only. *)
Definition os_unlink (p : string) : M unit := os_unlink_in always_deletes p.

(** Python truthiness of a [str]: the empty string is false. *)
Definition truthy (p : string) : bool :=
  match p with EmptyString => false | _ => true end.

(** ** The world outside [app.py] *)

(** A decoded frame: rows of pixels, three channels each. *)
Definition ndarray : Type := list (list (Z * Z * Z)).

Record PILImage := mkImage { im_mode : string; im_pixels : ndarray }.

(** A [cv2.VideoCapture] object.  [read_at k] is what [cap.read()] answers
    when the capture is positioned at frame [k]. *)
Record VideoCapture := mkCapture {
  isOpened : bool;
  get_frame_count : outcome Z;             (* int(cap.get(cv2.CAP_PROP_FRAME_COUNT)) *)
  set_pos_frames : Z -> outcome bool;      (* cap.set(cv2.CAP_PROP_POS_FRAMES, k) *)
  read_at : Z -> outcome (bool * ndarray);
  release : outcome unit                   (* cap.release() *)
}.

(** Streamlit's [UploadedFile]. *)
Record UploadedFile := mkUpload {
  getvalue : outcome (list Byte.byte)
}.

Record World := mkWorld {
  (* tempfile.NamedTemporaryFile(delete=False, suffix=...): the stem of the
     fresh name it picked, or the exception of a failed creation *)
  mkstemp : outcome string;
  tmp_write : list Byte.byte -> outcome unit;    (* tmp.write(data) *)
  tmp_close : outcome unit;                      (* closing tmp on exit *)
  cv2_VideoCapture : string -> outcome VideoCapture;
  cv2_cvtColor_BGR2RGB : ndarray -> outcome ndarray;
  Image_fromarray : ndarray -> outcome PILImage
}.

(** [tempfile.NamedTemporaryFile(delete=False, suffix=suffix)]: on success
    the file exists on disk under the returned name. *)
Definition NamedTemporaryFile (w : World) (suffix : string) : M string :=
  fun s => match mkstemp w with
           | Returns stem =>
               let name := stem +:+ suffix in
               (Returns name, mkState ({[name]} ∪ fs s) (video_path s) (pos_frames s) (seeks s))
           | Raises e => (Raises e, s)
           end.

(** [cv2.VideoCapture(path)]: a new capture starts at frame 0. *)
Definition VideoCapture_open (w : World) (path : string) : M VideoCapture :=
  fun s => match cv2_VideoCapture w path with
           | Returns cap => (Returns cap, mkState (fs s) (video_path s) 0 (seeks s))
           | Raises e => (Raises e, s)
           end.

(** [cap.set(cv2.CAP_PROP_POS_FRAMES, k)]: the capture moves to [k] when
    the backend accepts the request. *)
Definition cap_set_pos_frames (cap : VideoCapture) (k : Z) : M bool :=
  fun s => let s1 := mkState (fs s) (video_path s) (pos_frames s) (k :: seeks s) in
           match set_pos_frames cap k with
           | Returns true =>
               (Returns true, mkState (fs s) (video_path s) k (k :: seeks s))
           | Returns false => (Returns false, s1)
           | Raises e => (Raises e, s1)
           end.

(** [cap.read()] *)
Definition cap_read (cap : VideoCapture) : M (bool * ndarray) :=
  fun s => (read_at cap (pos_frames s), s).

(** ** [resize_for_display] *)

(** [ImageOps.pad(image, size, color='black')].  The function is this one
    call; what the padded image looks like is decided inside PIL, which
    enters as the parameter [ImageOps_pad]. *)
Definition resize_for_display
    (ImageOps_pad : PILImage -> Z * Z -> string -> PILImage)
    (image : PILImage) (size : option (Z * Z)) : PILImage :=
  ImageOps_pad image (default (256, 256) size) "black".

(** ** [extract_frame_from_video] *)

(** The triple the function returns: image or [None], frame count, error
    message or [None]. *)
Definition Extracted : Type := option PILImage * Z * option string.

(** The function, with every call it makes answered by the world and
    [os.unlink] answered by [may_delete]. *)
Definition extract_frame_from_video_in (may_delete : string -> outcome unit)
    (w : World) (video_file : UploadedFile) (frame_number : Z) : M Extracted :=
  set_video_path "" ;;
  try_except
    (tmp ← NamedTemporaryFile w ".mp4";
     with_exit (call (tmp_close w))
       (data ← call (getvalue video_file);
        call (tmp_write w data) ;;
        set_video_path tmp) ;;
     video_path ← get_video_path;
     cap ← VideoCapture_open w video_path;
     if negb (isOpened cap) then
       os_unlink_in may_delete video_path ;;
       mret (None, 0, Some "Gagal membuka file video.")
     else
       total_frames ← call (get_frame_count cap);
       if total_frames =? 0 then
         call (release cap) ;;
         os_unlink_in may_delete video_path ;;
         mret (None, 0, Some "Video tidak memiliki frame.")
       else
         cap_set_pos_frames cap (Z.min frame_number (total_frames - 1)) ;;
         '(ret, frame) ← cap_read cap;
         call (release cap) ;;
         os_unlink_in may_delete video_path ;;
         if (ret : bool) then
           frame_rgb ← call (cv2_cvtColor_BGR2RGB w frame);
           img ← call (Image_fromarray w frame_rgb);
           mret (Some img, total_frames, None)
         else
           mret (None, total_frames, Some "Gagal mengekstrak frame yang dipilih."))
    (fun e =>
       video_path ← get_video_path;
       ex ← os_path_exists video_path;
       (if truthy video_path && ex then os_unlink_in may_delete video_path else mret tt) ;;
       mret (None, 0, Some ("Error saat memproses video: " +:+ e))).

(** The function where the operating system never refuses to delete an
    existing file: the setting of every statement below that does not name
    [may_delete]. *)
Definition extract_frame_from_video (w : World) (video_file : UploadedFile)
    (frame_number : Z) : M Extracted :=
  extract_frame_from_video_in always_deletes w video_file frame_number.

(** The state a call starts from: any file system, locals not yet bound. *)
Definition initial (disk : gset string) : State := mkState disk "" 0 [].

(** The uploaded bytes reach a temporary file named [stem ++ ".mp4"] and
    OpenCV opens that file as [cap]. *)
Definition opens_as (w : World) (video_file : UploadedFile) (stem : string)
    (cap : VideoCapture) : Prop :=
  mkstemp w = Returns stem /\
  (exists data, getvalue video_file = Returns data /\
                tmp_write w data = Returns tt) /\
  tmp_close w = Returns tt /\
  cv2_VideoCapture w (stem +:+ ".mp4") = Returns cap /\
  isOpened cap = true.

(** ** Python floats, integers and lists *)

(** A Python [float] is an IEEE-754 binary64 value; [<], [<=] and [==] are
    the IEEE comparisons, false whenever an operand is NaN. *)
Definition float : Type := SpecFloat.spec_float.

Definition float_lt : float -> float -> bool := SpecFloat.SFltb.
Definition float_le : float -> float -> bool := SpecFloat.SFleb.
Definition float_eq : float -> float -> bool := SpecFloat.SFeqb.

Definition is_nan (x : float) : bool :=
  match x with SpecFloat.S754_nan => true | _ => false end.

(** [str(i)] for an [int]. *)
Definition str_int (i : Z) : string := NilEmpty.string_of_int (Z.to_int i).

(** [l[i]] on a Python list: a negative index counts from the end, an
    index outside [-len(l), len(l) - 1] raises [IndexError]. *)
Definition getitem {A} (l : list A) (i : Z) : outcome A :=
  let n := Z.of_nat (length l) in
  let j := if i <? 0 then i + n else i in
  if (0 <=? j) && (j <? n) then
    match l !! Z.to_nat j with
    | Some x => Returns x
    | None => Raises "list index out of range"
    end
  else Raises "list index out of range".

#[global] Instance outcome_ret : MRet outcome := @Returns.
#[global] Instance outcome_bind : MBind outcome :=
  fun A B f m => match m with Returns a => f a | Raises e => Raises e end.

(** [sorted(l, key=key, reverse=reverse)].  [list.sort] compares keys with
    [<] only and is stable; it is written here as a straight insertion
    sort, which every stable sort agrees with on keys that [<] orders
    totally.  [reverse=True] is done the way CPython does it: reverse the
    list, sort it, reverse the result. *)
Section PySorted.
Context {A K : Type}.
Variable lt : K -> K -> bool.
Variable key : A -> K.

Fixpoint insort (x : A) (l : list A) : list A :=
  match l with
  | [] => [x]
  | y :: l' => if lt (key y) (key x) then y :: insort x l' else x :: y :: l'
  end.

Definition list_sort (l : list A) : list A := foldr insort [] l.

Definition sorted (reverse : bool) (l : list A) : list A :=
  if reverse then rev (list_sort (rev l)) else list_sort l.
End PySorted.

(** ** Detector gateway *)

(** One entry of [result.boxes], read the way the loop of [main] reads it:
    [int(box.cls[0])] and [float(box.conf[0])]. *)
Record Box := mkBox { cls : Z; conf : float }.

(** The object [YOLO(model_path)] returns.  [predict image t] stands for
    [model(image, conf=t)[0].boxes]. *)
Record Detector := mkDetector {
  predict : PILImage -> float -> list Box
}.

(** What [load_model] sees of the process and the machine. *)
Record Host := mkHost {
  ULTRALYTICS_AVAILABLE : bool;          (* set by the guarded import *)
  disk : gset string;                    (* paths os.path.exists answers True for *)
  YOLO : string -> outcome Detector      (* the ultralytics constructor *)
}.

Definition Loaded : Type := option Detector * option string.

Definition load_model (h : Host) (model_path : string) : outcome Loaded :=
  match
    (if negb (ULTRALYTICS_AVAILABLE h)
     then Raises "Library 'ultralytics' tidak tersedia." else Returns tt) ;;
    (if negb (bool_decide (model_path ∈ disk h))
     then Raises ("File model tidak ditemukan: " +:+ model_path) else Returns tt) ;;
    model ← YOLO h model_path;
    mret (Some model, None)
  with
  | Returns r => Returns r
  | Raises e => Returns (None, Some e)
  end.

(** [@st.cache_resource]: results are kept per argument for the life of the
    process; the decorated body runs only on a miss, and only a returned
    value is stored (a raised exception is passed on and nothing is
    kept).  [attempts] logs the arguments the body ran on, latest first. *)
Record Cache := mkCache {
  store : gmap string Loaded;
  attempts : list string
}.

Definition cache_resource (body : string -> outcome Loaded) (arg : string)
    (c : Cache) : outcome Loaded * Cache :=
  match store c !! arg with
  | Some r => (Returns r, c)
  | None =>
      match body arg with
      | Returns r => (Returns r, mkCache (<[arg := r]> (store c)) (arg :: attempts c))
      | Raises e => (Raises e, mkCache (store c) (arg :: attempts c))
      end
  end.

(** The decorated [load_model], as [main] calls it. *)
Definition load_model_cached (h : Host) (model_path : string) (c : Cache)
  : outcome Loaded * Cache :=
  cache_resource (load_model h) model_path c.

(** A process lifetime: one call after the other, each on the host as it
    is at that moment. *)
Fixpoint run_loads (calls : list (Host * string)) (c : Cache)
  : list (outcome Loaded) * Cache :=
  match calls with
  | [] => ([], c)
  | (h, path) :: rest =>
      let '(r, c1) := load_model_cached h path c in
      let '(rs, c2) := run_loads rest c1 in
      (r :: rs, c2)
  end.

Definition empty_cache : Cache := mkCache ∅ [].

(** [detect]: the threshold goes to the model as its [conf] argument and
    the boxes come back as the model gave them. *)
Definition detect (model : Detector) (image : PILImage)
    (confidence_threshold : float) : list Box :=
  predict model image confidence_threshold.

(** ** Result normaliser *)

Record Detection := mkDetection { class : string; confidence : float }.

Definition class_names : list string :=
  ["Glioma"; "Meningioma"; "No Tumor"; "Pituitary"].

(** [class_names[class_id] if class_id < len(class_names) else f"Unknown ({class_id})"] *)
Definition class_name_of (class_id : Z) : outcome string :=
  if class_id <? Z.of_nat (length class_names)
  then getitem class_names class_id
  else Returns ("Unknown (" +:+ str_int class_id +:+ ")").

(** The loop over [result.boxes]: one record per box, in order; an
    exception in one iteration ends the whole loop. *)
Fixpoint detections_of (boxes : list Box) : outcome (list Detection) :=
  match boxes with
  | [] => Returns []
  | box :: rest =>
      class_name ← class_name_of (cls box);
      detections ← detections_of rest;
      mret (mkDetection class_name (conf box) :: detections)
  end.

(** [sorted(detections, key=lambda x: x['confidence'], reverse=True)] *)
Definition detections_sorted (detections : list Detection) : list Detection :=
  sorted float_lt confidence true detections.

(** ** Predicates used in the statements *)

(** The record a box must give rise to: the box's confidence, and as label
    the known one for an index within the list, ["Unknown (<index>)"] for
    any other. *)
Definition labelled (b : Box) (d : Detection) : Prop :=
  confidence d = conf b /\
  if (0 <=? cls b) && (cls b <? 4)
  then class_names !! Z.to_nat (cls b) = Some (class d)
  else class d = "Unknown (" +:+ str_int (cls b) +:+ ")".

(** What the cache holds was attempted once, and nothing was attempted
    without being held. *)
Definition cache_ok (c : Cache) : Prop :=
  NoDup (attempts c) /\ forall p, p ∈ attempts c -> is_Some (store c !! p).

(** [a] may stand before [b] in a list sorted by ascending key. *)
Definition ascending {A K} (lt : K -> K -> bool) (key : A -> K) (a b : A) : Prop :=
  lt (key b) (key a) = false.

(** ** Sample data *)

Definition f0_3 : float := SpecFloat.S754_finite false 5404319552844595 (-54).
Definition f0_5 : float := SpecFloat.S754_finite false 4503599627370496 (-53).
Definition f0_6 : float := SpecFloat.S754_finite false 5404319552844595 (-53).
Definition f0_9 : float := SpecFloat.S754_finite false 8106479329266893 (-53).

Definition bgr_to_rgb (a : ndarray) : ndarray :=
  map (map (fun '(b, g, r) => (r, g, b))) a.

(** A well-behaved capture over the given frames. *)
Definition sample_capture (frames : list ndarray) : VideoCapture :=
  mkCapture true
    (Returns (Z.of_nat (length frames)))
    (fun _ => Returns true)
    (fun k => match (if 0 <=? k then frames !! Z.to_nat k else None) with
              | Some f => Returns (true, f)
              | None => Returns (false, [])
              end)
    (Returns tt).

Definition sample_world (frames : list ndarray) : World :=
  mkWorld (Returns "/tmp/tmpk3x9q2ab")
    (fun _ => Returns tt)
    (Returns tt)
    (fun _ => Returns (sample_capture frames))
    (fun a => Returns (bgr_to_rgb a))
    (fun a => Returns (mkImage "RGB" a)).

(** The same machine with no room left on the disk that holds the
    temporary directory: the file is created, writing to it fails. *)
Definition disk_full_world : World :=
  mkWorld (Returns "/tmp/tmpk3x9q2ab")
    (fun _ => Raises "[Errno 28] No space left on device")
    (Returns tt)
    (fun _ => Returns (sample_capture []))
    (fun a => Returns (bgr_to_rgb a))
    (fun a => Returns (mkImage "RGB" a)).

Definition sample_upload : UploadedFile := mkUpload (Returns []).

Definition sample_frame (v : Z) : ndarray := [[(v, v, v)]].

Definition five_frames : list ndarray := map sample_frame [10; 11; 12; 13; 14].

Definition sample_image : PILImage := mkImage "RGB" (sample_frame 0).

(** A detector that reports, of three fixed candidates, those at or above
    the threshold. *)
Definition sample_candidates : list Box :=
  [mkBox 0 f0_3; mkBox 7 f0_9; mkBox 3 f0_6].

Definition sample_detector : Detector :=
  mkDetector (fun _ t => List.filter (fun b => float_le t (conf b)) sample_candidates).

Definition tied_detections : list Detection :=
  [mkDetection "Glioma" f0_3; mkDetection "Pituitary" f0_9;
   mkDetection "Unknown (7)" f0_9].

Definition no_ultralytics : Host := mkHost false ∅ (fun _ => Raises "unreachable").
Definition bare_host : Host := mkHost true ∅ (fun _ => Raises "unreachable").
Definition host_with_model : Host :=
  mkHost true {["best.pt"]} (fun _ => Returns sample_detector).

(** ** [get_prediction_style] *)

Definition prediction_styles : gmap string string :=
  list_to_map [("Glioma", "glioma"); ("Meningioma", "meningioma");
               ("No Tumor", "no-tumor"); ("Pituitary", "pituitary")].

(** [{...}.get(class_name, 'no-tumor')] *)
Definition get_prediction_style (class_name : string) : string :=
  default "no-tumor" (prediction_styles !! class_name).

(** The classes the stylesheet of the page defines for a prediction box. *)
Definition css_classes : list string :=
  ["glioma"; "meningioma"; "no-tumor"; "pituitary"].

(** [any(d['class'] != 'No Tumor' for d in detections)] *)
Definition any_tumor (detections : list Detection) : bool :=
  existsb (fun d => negb (String.eqb (class d) "No Tumor")) detections.

(** ** [load_example_images] *)

(** The dict literal of the function, in insertion order. *)
Definition image_files : list (string * string) :=
  [("Glioma", "glioma.jpg"); ("Meningioma", "meningioma.jpg");
   ("Pituitary", "pituitary.jpg"); ("No Tumor", "no tumor.jpg")].

(** The loop body over [image_files.items()]: an existing file is opened
    and stored under its name, a missing one adds a sidebar warning.  An
    exception of [Image.open] is not caught. *)
Fixpoint load_example_loop (Image_open : string -> outcome PILImage)
    (files : gset string) (items : list (string * string))
    (example_images : gmap string PILImage) (warnings : list string)
  : outcome (gmap string PILImage * list string) :=
  match items with
  | [] => Returns (example_images, warnings)
  | (name, filename) :: rest =>
      if bool_decide (filename ∈ files) then
        image ← Image_open filename;
        load_example_loop Image_open files rest
          (<[name := image]> example_images) warnings
      else
        load_example_loop Image_open files rest example_images
          (warnings ++ ["File contoh tidak ditemukan: " +:+ filename])
  end.

(** Returns the dict of images and the sidebar warnings, in order. *)
Definition load_example_images (Image_open : string -> outcome PILImage)
    (files : gset string) : outcome (gmap string PILImage * list string) :=
  load_example_loop Image_open files image_files ∅ [].

(** ** The session: [clear_results], selection, analysis *)

(** What [main] keeps in [st.session_state]. *)
Inductive SessionValue : Type :=
| SImage (image : PILImage)
| SArray (a : ndarray)
| SDetections (detections : list Detection).

(** [for key in [...]: if key in st.session_state: del st.session_state[key]] *)
Definition clear_results {V} (session_state : gmap string V) : gmap string V :=
  foldl (fun ss key => if bool_decide (is_Some (ss !! key)) then delete key ss else ss)
    session_state ["result_image"; "detections"; "selected_image"].

(** [clear_results(); st.session_state.selected_image = image], the body of
    the three "analyze" buttons. *)
Definition select_image (image : PILImage) (session_state : gmap string SessionValue)
  : gmap string SessionValue :=
  <["selected_image" := SImage image]> (clear_results session_state).

(** ['selected_image' in st.session_state and 'result_image' not in st.session_state] *)
Definition needs_analysis {V} (session_state : gmap string V) : bool :=
  bool_decide (is_Some (session_state !! "selected_image"))
  && negb (bool_decide (is_Some (session_state !! "result_image"))).

(** Truthiness of a value that is [None] or a [str]. *)
Definition truthy_opt (o : option string) : bool :=
  match o with Some s => truthy s | None => false end.

(** The analysis block of [main].  It yields the [st.error] messages shown,
    the session as the block leaves it (also when it raises half-way) and
    the cache.  [result_plot image boxes] stands for [result.plot()]; the
    call of the model itself is taken to return, as in [detect].  A session
    of this program never holds anything but an image under
    ["selected_image"]; the block does nothing on one that does. *)
Definition analyze (h : Host) (w : World)
    (result_plot : PILImage -> list Box -> outcome ndarray)
    (model_path : string) (confidence_threshold : float)
    (c : Cache) (session_state : gmap string SessionValue)
  : outcome (list string) * gmap string SessionValue * Cache :=
  if needs_analysis session_state then
    match load_model_cached h model_path c with
    | (Raises e, c') => (Raises e, session_state, c')
    | (Returns (model, model_error), c') =>
        if truthy_opt model_error then
          (Returns ["Failed to load model: " +:+ default "" model_error],
           session_state, c')
        else
          match model, session_state !! "selected_image" with
          | None, _ =>
              (Raises "'NoneType' object is not callable", session_state, c')
          | Some model, Some (SImage image) =>
              let boxes := detect model image confidence_threshold in
              match bgr ← result_plot image boxes; cv2_cvtColor_BGR2RGB w bgr with
              | Raises e => (Raises e, session_state, c')
              | Returns plotted_image =>
                  let ss1 := <["result_image" := SArray plotted_image]> session_state in
                  match detections_of boxes with
                  | Raises e => (Raises e, ss1, c')
                  | Returns detections =>
                      (Returns [], <["detections" := SDetections detections]> ss1, c')
                  end
              end
          | Some _, _ => (Returns [], session_state, c')
          end
    end
  else (Returns [], session_state, c).

(** Each key of the session holds the kind of value [main] stores there. *)
Definition session_typed (session_state : gmap string SessionValue) : Prop :=
  (forall v, session_state !! "selected_image" = Some v -> exists i, v = SImage i) /\
  (forall v, session_state !! "result_image" = Some v -> exists a, v = SArray a) /\
  (forall v, session_state !! "detections" = Some v -> exists ds, v = SDetections ds).

(** ** The video tab of [main] *)

Inductive VideoTab : Type :=
| tab_error (message : string)                    (* st.error(error) *)
| tab_frame (image : PILImage) (frame_number : Z) (* the frame is shown *)
| tab_nothing                                     (* no image came back *)
| tab_warning.                                    (* "Could not read frames ..." *)

(** Lines 189-204.  [slider lo hi value] is [st.slider(label, lo, hi, value)],
    Streamlit's widget: it answers with the position the user chose, or
    raises. *)
Definition video_tab (w1 w2 : World) (slider : Z -> Z -> Z -> outcome Z)
    (uploaded_video : UploadedFile) : M VideoTab :=
  '(_, total_frames, error) ← extract_frame_from_video w1 uploaded_video 0;
  if truthy_opt error then mret (tab_error (default "" error))
  else if total_frames >? 0 then
    frame_number ← call (slider 0 (total_frames - 1) (total_frames / 2));
    '(image_to_process, _, _) ← extract_frame_from_video w2 uploaded_video frame_number;
    match image_to_process with
    | Some image => mret (tab_frame image frame_number)
    | None => mret tab_nothing
    end
  else mret tab_warning.

(** The shapes a triple returned by [extract_frame_from_video] can take. *)
Definition extracted_shape (r : Extracted) : Prop :=
  (exists img total, total <> 0 /\ r = (Some img, total, None))
  \/ r = (None, 0, Some "Gagal membuka file video.")
  \/ r = (None, 0, Some "Video tidak memiliki frame.")
  \/ (exists total, total <> 0 /\
        r = (None, total, Some "Gagal mengekstrak frame yang dipilih."))
  \/ (exists e, r = (None, 0, Some ("Error saat memproses video: " +:+ e))).

(** The upload reaches the temporary file [stem ++ ".mp4"] and OpenCV
    answers with the capture [cap], opened or not. *)
Definition captured_as (w : World) (video_file : UploadedFile) (stem : string)
    (cap : VideoCapture) : Prop :=
  mkstemp w = Returns stem /\
  (exists data, getvalue video_file = Returns data /\
                tmp_write w data = Returns tt) /\
  tmp_close w = Returns tt /\
  cv2_VideoCapture w (stem +:+ ".mp4") = Returns cap.

(** The capture after [cap.set(cv2.CAP_PROP_POS_FRAMES, k)]: at [k] when the
    backend took the request, still at its first frame when it refused. *)
Definition position_after_seek (k : Z) (moved : bool) : Z :=
  if moved then k else 0.

(** Attempts and store of a cache say the same. *)
Definition cache_exact (c : Cache) : Prop :=
  forall p, p ∈ attempts c <-> is_Some (store c !! p).

(** More sample data *)

Definition unopened_capture : VideoCapture :=
  mkCapture false (Returns 0) (fun _ => Returns false)
    (fun _ => Returns (false, [])) (Returns tt).

(** A machine on which OpenCV cannot open what was uploaded. *)
Definition unreadable_world : World :=
  mkWorld (Returns "/tmp/tmpk3x9q2ab")
    (fun _ => Returns tt)
    (Returns tt)
    (fun _ => Returns unopened_capture)
    (fun a => Returns (bgr_to_rgb a))
    (fun a => Returns (mkImage "RGB" a)).

(** A capture that reports five frames and reads none. *)
Definition broken_capture : VideoCapture :=
  mkCapture true (Returns 5) (fun _ => Returns true)
    (fun _ => Returns (false, [])) (Returns tt).

Definition broken_world : World :=
  mkWorld (Returns "/tmp/tmpk3x9q2ab")
    (fun _ => Returns tt)
    (Returns tt)
    (fun _ => Returns broken_capture)
    (fun a => Returns (bgr_to_rgb a))
    (fun a => Returns (mkImage "RGB" a)).

(** [Image.open] on a machine where every file is a readable picture, and
    on one where none is. *)
Definition sample_open (filename : string) : outcome PILImage :=
  Returns (mkImage "RGB" (sample_frame (Z.of_nat (String.length filename)))).

Definition corrupt_open (filename : string) : outcome PILImage :=
  Raises ("cannot identify image file '" +:+ filename +:+ "'").

(** The dict and the warnings the loop ends with when every existing
    file opens as [imgs] says. *)
Definition examples_found (imgs : string -> PILImage) (files : gset string)
    (items : list (string * string)) (acc : gmap string PILImage)
  : gmap string PILImage :=
  foldl (fun a '(name, filename) =>
           if bool_decide (filename ∈ files) then <[name := imgs filename]> a else a)
    acc items.

Definition examples_missing (files : gset string) (items : list (string * string))
  : list string :=
  map (fun f => "File contoh tidak ditemukan: " +:+ f)
    (List.filter (fun f => negb (bool_decide (f ∈ files))) items.*2).

(** An operating system that refuses every deletion, as it does for a file
    that is still held open. *)
Definition refuses_delete (p : string) : outcome unit :=
  Raises ("[Errno 13] Permission denied: '" +:+ p +:+ "'").

(** A capture that opens and whose frame count comes back as NaN, which
    [int] rejects. *)
Definition uncountable_capture : VideoCapture :=
  mkCapture true (Raises "cannot convert float NaN to integer")
    (fun _ => Returns true) (fun _ => Returns (false, [])) (Returns tt).

Definition uncountable_world : World :=
  mkWorld (Returns "/tmp/tmpk3x9q2ab")
    (fun _ => Returns tt)
    (Returns tt)
    (fun _ => Returns uncountable_capture)
    (fun a => Returns (bgr_to_rgb a))
    (fun a => Returns (mkImage "RGB" a)).

(** A host whose model file is there but makes [YOLO] fail without a
    word, as a bare [assert] does. *)
Definition silent_failure_host : Host :=
  mkHost true {["best.pt"]} (fun _ => Raises "").

(** A slider left at its initial position; a request whose initial
    position is outside its bounds is refused. *)
Definition sample_slider (lo hi value : Z) : outcome Z :=
  if (lo <=? value) && (value <=? hi) then Returns value
  else Raises "StreamlitAPIException".

(** A slider that, like Streamlit's, wants its lower bound strictly below
    its upper bound. *)
Definition strict_slider (lo hi value : Z) : outcome Z :=
  if (lo <? hi) && (lo <=? value) && (value <=? hi) then Returns value
  else Raises "Slider `min_value` must be less than the `max_value`.".

(** A capture whose backend reports a negative frame count and still
    reads. *)
Definition uncounted_capture : VideoCapture :=
  mkCapture true (Returns (-1)) (fun _ => Returns true)
    (fun _ => Returns (true, sample_frame 10)) (Returns tt).

Definition uncounted_world : World :=
  mkWorld (Returns "/tmp/tmpk3x9q2ab")
    (fun _ => Returns tt)
    (Returns tt)
    (fun _ => Returns uncounted_capture)
    (fun a => Returns (bgr_to_rgb a))
    (fun a => Returns (mkImage "RGB" a)).

Definition sample_plot (image : PILImage) (boxes : list Box) : outcome ndarray :=
  Returns (im_pixels image).

Definition sample_session : gmap string SessionValue :=
  select_image sample_image ∅.

(** * Properties *)

(** ** Video frame extraction *)

Ltac unfold_run :=
  unfold extract_frame_from_video, extract_frame_from_video_in,
    try_except, with_exit, NamedTemporaryFile,
    VideoCapture_open, cap_set_pos_frames, cap_read,
    call, os_unlink, os_unlink_in, always_deletes,
    os_path_exists, get_video_path, set_video_path,
    mbind, M_bind, mbind_M, mret, M_ret, mret_M in *;
  cbn [fst snd fs video_path pos_frames seeks] in *.

Lemma truthy_mp4 stem : truthy (stem +:+ ".mp4") = true.
Proof. destruct stem; reflexivity. Qed.

(** One control-flow decision of the run: split on the innermost scrutinee. *)
Ltac step :=
  match goal with
  | |- context [match ?x with _ => _ end] =>
      lazymatch x with
      | context [match _ with _ => _ end] => fail
      | _ => destruct x eqn:?
      end
  | |- context [if ?x then _ else _] =>
      lazymatch x with
      | context [if _ then _ else _] => fail
      | context [match _ with _ => _ end] => fail
      | _ => destruct x eqn:?
      end
  end;
  cbn [fst snd fs video_path pos_frames seeks negb andb] in *;
  rewrite ?truthy_mp4 in *; cbn [andb] in *; try discriminate.

Ltac fs_facts :=
  repeat match goal with
  | H : bool_decide _ = true |- _ => apply bool_decide_eq_true in H
  | H : bool_decide _ = false |- _ => apply bool_decide_eq_false in H
  end.

Ltac shape_solve :=
  unfold extracted_shape;
  repeat match goal with
  | H : (_ =? 0) = false |- _ => apply Z.eqb_neq in H
  end;
  first
    [ left; do 2 eexists; split; [eassumption | reflexivity]
    | right; left; reflexivity
    | right; right; left; reflexivity
    | right; right; right; left; eexists; split; [eassumption | reflexivity]
    | right; right; right; right; eexists; reflexivity ].

Ltac unfold_run_in :=
  unfold extract_frame_from_video_in, try_except, with_exit, NamedTemporaryFile,
    VideoCapture_open, cap_set_pos_frames, cap_read,
    call, os_unlink_in, os_path_exists, get_video_path, set_video_path,
    mbind, M_bind, mbind_M, mret, M_ret, mret_M in *;
  cbn [fst snd fs video_path pos_frames seeks] in *.

(** With [os.unlink] free to fail, a call ends in one of two ways: it
    returns a triple of one of the five shapes, or an exception leaves it,
    and then that exception is the refusal to delete the temporary file,
    which is still on disk. *)
Lemma extract_frame_from_video_in_cases may_delete w video_file frame_number s :
  (exists r s',
      extract_frame_from_video_in may_delete w video_file frame_number s
        = (Returns r, s')
      /\ extracted_shape r)
  \/ (exists e stem s',
        extract_frame_from_video_in may_delete w video_file frame_number s
          = (Raises e, s')
        /\ mkstemp w = Returns stem
        /\ may_delete (stem +:+ ".mp4") = Raises e
        /\ stem +:+ ".mp4" ∈ fs s').
Proof.
  unfold_run_in.
  repeat step;
    first
      [ left; do 2 eexists; split; [reflexivity | shape_solve]
      | right; do 3 eexists; split_and!;
        [reflexivity | reflexivity | eassumption | fs_facts; set_unfold; tauto] ].
Qed.

(** C10: the claim fails where the handler's own [os.unlink] raises.  The
    capture opens, reading its frame count raises, and the handler finds
    the temporary file and tries to delete it; the file is still held, the
    deletion is refused, and that exception leaves the function: no triple
    is returned, and the file stays on disk. *)
Theorem extract_frame_from_video_handler_raises :
  fst (extract_frame_from_video_in refuses_delete uncountable_world sample_upload 0
         (initial ∅))
    = Raises "[Errno 13] Permission denied: '/tmp/tmpk3x9q2ab.mp4'"
  /\ "/tmp/tmpk3x9q2ab.mp4"
       ∈ fs (snd (extract_frame_from_video_in refuses_delete uncountable_world
                    sample_upload 0 (initial ∅))).
Proof.
  unfold_run_in. cbn. split; [reflexivity |].
  rewrite bool_decide_eq_true_2 by (set_unfold; tauto). cbn. set_unfold. tauto.
Qed.

(** Once the upload has been written to the temporary file (the point where
    [video_path] is bound), no exit path leaves the file behind. *)
Lemma temp_file_deleted_once_written w video_file frame_number s stem data :
  mkstemp w = Returns stem ->
  getvalue video_file = Returns data ->
  tmp_write w data = Returns tt ->
  stem +:+ ".mp4" ∉ fs (snd (extract_frame_from_video w video_file frame_number s)).
Proof.
  intros Hs Hg Hw. unfold_run. rewrite Hs, Hg, Hw.
  cbn [fst snd fs video_path pos_frames seeks].
  repeat step; fs_facts; set_unfold; tauto.
Qed.

(** C1: the claim fails when writing the upload raises.  The temporary file
    exists by then, [video_path] is still the empty string, and the handler
    finds nothing to delete: the call returns its error triple and the
    file stays on disk. *)
Theorem extract_frame_from_video_leaks_on_write_error :
  fst (extract_frame_from_video disk_full_world sample_upload 0 (initial ∅))
    = Returns (None, 0,
        Some "Error saat memproses video: [Errno 28] No space left on device")
  /\ "/tmp/tmpk3x9q2ab.mp4"
       ∈ fs (snd (extract_frame_from_video disk_full_world sample_upload 0 (initial ∅))).
Proof.
  unfold_run. cbn. split; [reflexivity | set_solver].
Qed.

(** C8: a video that opens and reports zero frames gives the triple
    [(None, 0, "Video tidak memiliki frame.")]: no image, no exception. *)
Theorem extract_frame_from_video_zero_frames w video_file stem cap frame_number s :
  opens_as w video_file stem cap ->
  get_frame_count cap = Returns 0 ->
  release cap = Returns tt ->
  exists s',
    extract_frame_from_video w video_file frame_number s
      = (Returns (None, 0, Some "Video tidak memiliki frame."), s')
    /\ stem +:+ ".mp4" ∉ fs s'.
Proof.
  intros (Hs & (data & Hg & Hw) & Hc & Ho & Hop) Hn Hr.
  unfold_run. rewrite Hs, Hg, Hw, Hc. cbn [fst snd fs video_path pos_frames seeks].
  rewrite Ho, Hop, Hn, Hr. cbn [negb Z.eqb fst snd fs video_path pos_frames seeks].
  rewrite bool_decide_eq_true_2 by set_solver.
  eexists; split; [reflexivity | cbn; set_unfold; tauto].
Qed.

Lemma extract_frame_from_video_zero_frames_witness :
  exists s',
    extract_frame_from_video (sample_world []) sample_upload 3 (initial ∅)
      = (Returns (None, 0, Some "Video tidak memiliki frame."), s')
    /\ "/tmp/tmpk3x9q2ab" +:+ ".mp4" ∉ fs s'.
Proof.
  apply (extract_frame_from_video_zero_frames (sample_world []) sample_upload
           "/tmp/tmpk3x9q2ab" (sample_capture [])).
  - repeat split; try reflexivity. exists []. split; reflexivity.
  - reflexivity.
  - reflexivity.
Defined.




(** ** Detector gateway *)

(** [load_model] hands every exception back as a message. *)
Lemma load_model_never_raises h model_path :
  exists loaded, load_model h model_path = Returns loaded.
Proof.
  unfold load_model.
  destruct (ULTRALYTICS_AVAILABLE h), (bool_decide (model_path ∈ disk h));
    cbn; try (eexists; reflexivity).
  destruct (YOLO h model_path); cbn; eexists; reflexivity.
Qed.

(** C6, as stated, promises the not-found message for every missing path.
    Where the ultralytics import has failed, that check is never reached. *)
Lemma load_model_missing_path_other_message :
  ~ (forall h model_path,
        model_path ∉ disk h ->
        load_model h model_path
          = Returns (None, Some ("File model tidak ditemukan: " +:+ model_path))).
Proof.
  intros H. specialize (H no_ultralytics "best.pt" ltac:(set_solver)).
  vm_compute in H. discriminate H.
Qed.

(** C6, amended: for a path that does not exist, [load_model] returns
    [(None, message)] and raises nothing; the message is the not-found one
    when ultralytics was imported, and the missing-library one otherwise. *)
Theorem load_model_missing_path h model_path :
  model_path ∉ disk h ->
  load_model h model_path
    = Returns (None,
        Some (if ULTRALYTICS_AVAILABLE h
              then "File model tidak ditemukan: " +:+ model_path
              else "Library 'ultralytics' tidak tersedia.")).
Proof.
  intros Hmiss. unfold load_model.
  rewrite bool_decide_eq_false_2 by assumption.
  destruct (ULTRALYTICS_AVAILABLE h); reflexivity.
Qed.

Lemma load_model_missing_path_witness :
  load_model bare_host "best.pt"
    = Returns (None,
        Some (if ULTRALYTICS_AVAILABLE bare_host
              then "File model tidak ditemukan: " +:+ "best.pt"
              else "Library 'ultralytics' tidak tersedia.")).
Proof.
  apply (load_model_missing_path bare_host "best.pt").
  unfold bare_host; cbn. set_solver.
Defined.

Lemma load_model_cached_spec h path c :
  exists loaded,
    fst (load_model_cached h path c) = Returns loaded
    /\ store (snd (load_model_cached h path c)) !! path = Some loaded
    /\ store c ⊆ store (snd (load_model_cached h path c))
    /\ (store c !! path = None -> load_model h path = Returns loaded)
    /\ (cache_ok c -> cache_ok (snd (load_model_cached h path c))).
Proof.
  unfold load_model_cached, cache_resource.
  destruct (store c !! path) as [r |] eqn:Hlook.
  - exists r. cbn. split_and!; done.
  - destruct (load_model_never_raises h path) as [loaded Hload].
    rewrite Hload. exists loaded. cbn. split_and!; try done.
    + apply lookup_insert_eq.
    + by apply insert_subseteq.
    + intros [Hnd Hin]. split; cbn.
      * constructor; [| assumption].
        intros Hel. apply Hin in Hel. rewrite Hlook in Hel. by destruct Hel.
      * intros p Hp. destruct (decide (p = path)) as [-> | Hne].
        -- rewrite lookup_insert_eq. eauto.
        -- rewrite lookup_insert_ne by congruence. apply Hin.
           apply elem_of_cons in Hp as [? | ?]; [congruence | assumption].
Qed.

Lemma run_loads_spec calls : forall c,
  cache_ok c ->
  cache_ok (snd (run_loads calls c))
  /\ store c ⊆ store (snd (run_loads calls c))
  /\ (forall i h path, calls !! i = Some (h, path) ->
        exists loaded,
          fst (run_loads calls c) !! i = Some (Returns loaded)
          /\ store (snd (run_loads calls c)) !! path = Some loaded)
  /\ (forall i h path, calls !! i = Some (h, path) ->
        store c !! path = None ->
        (forall j h', (j < i)%nat -> calls !! j <> Some (h', path)) ->
        fst (run_loads calls c) !! i = Some (load_model h path)).
Proof.
  induction calls as [| [h0 p0] rest IH]; intros c Hok.
  - cbn. split_and!; done.
  - cbn [run_loads].
    destruct (load_model_cached_spec h0 p0 c)
      as (loaded0 & Hr0 & Hst0 & Hsub0 & Hmiss0 & Hok0).
    destruct (load_model_cached h0 p0 c) as [r0 c1] eqn:Hcall. cbn in *.
    specialize (IH c1 (Hok0 Hok)) as (IHok & IHsub & IHres & IHfirst).
    destruct (run_loads rest c1) as [rs c2] eqn:Hrest. cbn in *.
    split_and!.
    + apply IHok.
    + etrans; eassumption.
    + intros [| i] h path Hi; cbn in *.
      * inversion Hi; subst. exists loaded0. split; [done |].
        eapply lookup_weaken; eassumption.
      * eapply IHres; eassumption.
    + intros [| i] h path Hi Hnone Hfirst; cbn in *.
      * inversion Hi; subst. rewrite (Hmiss0 Hnone). reflexivity.
      * eapply IHfirst; [eassumption | |].
        -- assert (Hne : p0 <> path).
           { intros ->. apply (Hfirst 0%nat h0); [lia | reflexivity]. }
           unfold load_model_cached, cache_resource in Hcall.
           destruct (store c !! p0) eqn:Hp0.
           ++ inversion Hcall; subst. assumption.
           ++ destruct (load_model h0 p0); inversion Hcall; subst; cbn;
                [by rewrite lookup_insert_ne | assumption].
        -- intros j h' Hj. apply (Hfirst (S j) h'). lia.
Qed.

Lemma cache_ok_empty : cache_ok empty_cache.
Proof. split; [constructor | intros p Hp; by apply elem_of_nil in Hp]. Qed.

(** C7: over any sequence of calls in one process, starting from an empty
    cache, the body of [load_model] runs at most once per path; the first
    call for a path returns what [load_model] computes then; every later
    call for that path returns the same value whatever the host has become,
    a failure included; and no call raises. *)
Theorem load_model_memoized calls :
  NoDup (attempts (snd (run_loads calls empty_cache)))
  /\ (forall i h path, calls !! i = Some (h, path) ->
        (forall j h', (j < i)%nat -> calls !! j <> Some (h', path)) ->
        fst (run_loads calls empty_cache) !! i = Some (load_model h path))
  /\ (forall i j h h' path,
        calls !! i = Some (h, path) -> calls !! j = Some (h', path) ->
        fst (run_loads calls empty_cache) !! i
          = fst (run_loads calls empty_cache) !! j
        /\ exists loaded,
             fst (run_loads calls empty_cache) !! i = Some (Returns loaded)).
Proof.
  destruct (run_loads_spec calls empty_cache cache_ok_empty)
    as ((Hnd & _) & _ & Hres & Hfirst).
  split; [assumption | split].
  - intros i h path Hi Hearlier. eapply Hfirst; eauto.
  - intros i j h h' path Hi Hj.
    destruct (Hres i h path Hi) as (l1 & Hr1 & Hs1).
    destruct (Hres j h' path Hj) as (l2 & Hr2 & Hs2).
    rewrite Hs1 in Hs2. inversion Hs2; subst.
    split; [congruence | eauto].
Qed.

(** A failed load stays in the cache: the model file appears on disk
    after the first call, and the second call still returns the failure. *)
Example load_failure_stays_cached :
  fst (run_loads [(bare_host, "best.pt"); (host_with_model, "best.pt")] empty_cache)
  = [Returns (None, Some "File model tidak ditemukan: best.pt");
     Returns (None, Some "File model tidak ditemukan: best.pt")].
Proof. vm_compute. reflexivity. Qed.

(** ** Detections *)

(** Case analysis on the integer comparisons inside an IEEE comparison. *)
Ltac cmp_cases :=
  repeat match goal with
  | |- context [Z.compare ?a ?b] => destruct (Z.compare_spec a b)
  | |- context [Pos.compare_cont Eq ?a ?b] =>
      change (Pos.compare_cont Eq a b) with (Pos.compare a b)
  | |- context [Pos.compare ?a ?b] => destruct (Pos.compare_spec a b)
  | H : context [Z.compare ?a ?b] |- _ => destruct (Z.compare_spec a b)
  | H : context [Pos.compare_cont Eq ?a ?b] |- _ =>
      change (Pos.compare_cont Eq a b) with (Pos.compare a b) in H
  | H : context [Pos.compare ?a ?b] |- _ => destruct (Pos.compare_spec a b)
  end; simpl in *; try congruence; try lia.







Lemma class_name_of_nonneg class_id :
  0 <= class_id ->
  exists name,
    class_name_of class_id = Returns name
    /\ if class_id <? 4
       then class_names !! Z.to_nat class_id = Some name
       else name = "Unknown (" +:+ str_int class_id +:+ ")".
Proof.
  intros Hnn. unfold class_name_of.
  change (Z.of_nat (length class_names)) with 4.
  destruct (Z.ltb_spec class_id 4) as [Hlt | Hge];
    [| eexists; split; reflexivity].
  assert (Hcases : class_id = 0 \/ class_id = 1 \/ class_id = 2 \/ class_id = 3)
    by lia.
  destruct Hcases as [-> | [-> | [-> | ->]]]; eexists; split; reflexivity.
Qed.

(** C4, as stated, covers every class index.  The guard of the loop is
    [class_id < len(class_names)] alone, so an index below [-4] reaches the
    list and raises [IndexError], which ends the batch. *)
Lemma detections_of_negative_class_index :
  ~ (forall boxes,
        exists ds, detections_of boxes = Returns ds /\ Forall2 labelled boxes ds).
Proof.
  intros H. destruct (H [mkBox 0 f0_9; mkBox (-5) f0_6]) as (ds & Hds & _).
  vm_compute in Hds. discriminate Hds.
Qed.

(** C4, amended: on boxes whose class indices are not negative the loop
    returns one record per box, in order, with the box's confidence; the
    label is the known one for an index below 4 and ["Unknown (<index>)"]
    from 4 on. *)
Theorem detections_of_labels boxes :
  Forall (fun b => 0 <= cls b) boxes ->
  exists ds, detections_of boxes = Returns ds /\ Forall2 labelled boxes ds.
Proof.
  induction 1 as [| b boxes Hb _ IH]; cbn.
  - exists []. split; [reflexivity | constructor].
  - destruct (class_name_of_nonneg (cls b) Hb) as (name & -> & Hname).
    destruct IH as (ds & -> & Hds). cbn.
    eexists; split; [reflexivity |]. constructor; [| assumption].
    split; [reflexivity |]. cbn [class].
    rewrite (proj2 (Z.leb_le 0 (cls b)) Hb). cbn [andb]. assumption.
Qed.

Lemma detections_of_labels_witness :
  exists ds,
    detections_of sample_candidates = Returns ds
    /\ Forall2 labelled sample_candidates ds.
Proof.
  apply (detections_of_labels sample_candidates).
  repeat constructor; cbn; lia.
Defined.

(** The example of C4: class index 7 against the four known labels. *)
Example class_name_of_7 : class_name_of 7 = Returns "Unknown (7)".
Proof. reflexivity. Qed.

(** Python's negative indexing is what the guard lets through. *)
Example class_name_of_minus_1 : class_name_of (-1) = Returns "Pituitary".
Proof. reflexivity. Qed.

(** *** The display sort *)

Lemma float_lt_asym a b : float_lt a b = true -> float_lt b a = false.
Proof.
  unfold float_lt, SpecFloat.SFltb, SpecFloat.SFcompare.
  destruct a as [[]|[]| |[] ? ?], b as [[]|[]| |[] ? ?];
    simpl; try congruence; cmp_cases.
Qed.

Lemma float_lt_negtrans a b c :
  is_nan b = false ->
  float_lt a c = true -> float_lt a b = true \/ float_lt b c = true.
Proof.
  unfold float_lt, SpecFloat.SFltb, SpecFloat.SFcompare.
  destruct a as [[]|[]| |[] ? ?], b as [[]|[]| |[] ? ?], c as [[]|[]| |[] ? ?];
    simpl; try congruence; auto; intros _; cmp_cases; auto.
Qed.

Lemma float_eq_no_lt a b c :
  float_eq a c = true -> float_eq b c = true -> float_lt a b = false.
Proof.
  unfold float_lt, float_eq, SpecFloat.SFltb, SpecFloat.SFeqb, SpecFloat.SFcompare.
  destruct a as [[]|[]| |[] ? ?], b as [[]|[]| |[] ? ?], c as [[]|[]| |[] ? ?];
    simpl; try congruence; auto; cmp_cases; auto.
Qed.

Lemma float_not_lt_le a b :
  is_nan a = false -> is_nan b = false ->
  float_lt a b = false -> float_le b a = true.
Proof.
  unfold float_lt, float_le, SpecFloat.SFltb, SpecFloat.SFleb, SpecFloat.SFcompare.
  destruct a as [[]|[]| |[] ? ?], b as [[]|[]| |[] ? ?];
    simpl; try congruence; auto; intros _ _; cmp_cases; auto.
Qed.

(** A confidence within [[0, 1]] is in particular not NaN. *)
Lemma unit_interval_not_nan (c : float) :
  float_le (SpecFloat.S754_zero false) c = true -> is_nan c = false.
Proof. destruct c; cbn; congruence. Qed.

Section SortedFacts.
Context {A K : Type}.
Variables (lt eqb : K -> K -> bool) (key : A -> K) (valid : K -> Prop).
Hypothesis lt_asym : forall a b, lt a b = true -> lt b a = false.
Hypothesis lt_negtrans :
  forall a b c, valid b -> lt a c = true -> lt a b = true \/ lt b c = true.
Hypothesis eqb_no_lt :
  forall a b c, eqb a c = true -> eqb b c = true -> lt a b = false.

Lemma insort_perm x l : Permutation (insort lt key x l) (x :: l).
Proof.
  induction l as [| y l IH]; cbn; [reflexivity |].
  destruct (lt (key y) (key x)); [| reflexivity].
  rewrite IH. apply perm_swap.
Qed.

Lemma list_sort_perm l : Permutation (list_sort lt key l) l.
Proof.
  induction l as [| x l IH]; cbn; [reflexivity |].
  fold (list_sort lt key l). rewrite insort_perm. by constructor.
Qed.

Lemma insort_sorted x l :
  Forall (fun a => valid (key a)) l ->
  StronglySorted (ascending lt key) l ->
  StronglySorted (ascending lt key) (insort lt key x l).
Proof.
  intros Hvalid Hsorted. induction Hsorted as [| y l Hs IH Hy]; cbn.
  - repeat constructor.
  - apply Forall_cons in Hvalid as [Hvy Hvl].
    destruct (lt (key y) (key x)) eqn:Hyx.
    + constructor; [by apply IH |].
      rewrite insort_perm. constructor; [| assumption].
      unfold ascending. by apply lt_asym.
    + constructor; [by constructor |].
      constructor; [exact Hyx |].
      eapply Forall_impl; [exact Hy |]. unfold ascending. intros z Hzy.
      destruct (lt (key z) (key x)) eqn:Hzx; [| reflexivity].
      destruct (lt_negtrans _ (key y) _ Hvy Hzx); congruence.
Qed.

Lemma list_sort_sorted l :
  Forall (fun a => valid (key a)) l ->
  StronglySorted (ascending lt key) (list_sort lt key l).
Proof.
  induction 1 as [| x l Hx Hl IH]; cbn; [constructor |].
  fold (list_sort lt key l). apply insort_sorted; [| assumption].
  by rewrite list_sort_perm.
Qed.

Lemma insort_filter c x l :
  List.filter (fun a => eqb (key a) c) (insort lt key x l)
    = List.filter (fun a => eqb (key a) c) (x :: l).
Proof.
  induction l as [| y l IH]; [reflexivity |].
  cbn [insort]. destruct (lt (key y) (key x)) eqn:Hyx; [| reflexivity].
  cbn [List.filter] in *. rewrite IH.
  destruct (eqb (key y) c) eqn:Hy, (eqb (key x) c) eqn:Hx; try reflexivity.
  rewrite (eqb_no_lt _ _ _ Hy Hx) in Hyx. discriminate.
Qed.

Lemma list_sort_filter c l :
  List.filter (fun a => eqb (key a) c) (list_sort lt key l)
    = List.filter (fun a => eqb (key a) c) l.
Proof.
  induction l as [| x l IH]; [reflexivity |].
  cbn [list_sort foldr]. fold (list_sort lt key l).
  rewrite insort_filter. cbn [List.filter]. by rewrite IH.
Qed.

Lemma StronglySorted_rev (R : A -> A -> Prop) l :
  StronglySorted R l -> StronglySorted (fun a b => R b a) (rev l).
Proof.
  induction 1 as [| x l Hs IH Hx]; cbn; [constructor |].
  apply StronglySorted_app_2; [| assumption | repeat constructor].
  intros a b Ha Hb. apply list_elem_of_singleton in Hb as ->.
  rewrite Forall_forall in Hx. apply Hx.
  apply list_elem_of_In, in_rev. by apply list_elem_of_In.
Qed.

(** [sorted(l, key=key, reverse=True)]: same elements, no key below a
    later one, equal keys in their input order. *)
Lemma sorted_reverse_spec l :
  Forall (fun a => valid (key a)) l ->
  Permutation (sorted lt key true l) l
  /\ StronglySorted (fun a b => lt (key a) (key b) = false) (sorted lt key true l)
  /\ forall c, List.filter (fun a => eqb (key a) c) (sorted lt key true l)
               = List.filter (fun a => eqb (key a) c) l.
Proof.
  intros Hvalid. unfold sorted. split_and!.
  - rewrite <- Permutation_rev, list_sort_perm. symmetry. apply Permutation_rev.
  - apply (StronglySorted_rev (ascending lt key)). apply list_sort_sorted.
    by rewrite <- Permutation_rev.
  - intros c. rewrite filter_rev, list_sort_filter, filter_rev. apply rev_involutive.
Qed.
End SortedFacts.

Lemma descending_le (l : list Detection) :
  Forall (fun d => is_nan (confidence d) = false) l ->
  StronglySorted (fun a b => float_lt (confidence a) (confidence b) = false) l ->
  StronglySorted (fun a b => float_le (confidence b) (confidence a) = true) l.
Proof.
  intros Hall Hsorted. induction Hsorted as [| d l Hs IH Hd]; constructor.
  - apply IH. by apply Forall_cons in Hall as [_ ?].
  - apply Forall_cons in Hall as [Hdn Hln].
    rewrite Forall_forall in *. intros x Hx.
    apply float_not_lt_le; auto.
Qed.

(** C2: the list the display loop enumerates holds the detections it was
    given, in non-increasing order of confidence, and detections of equal
    confidence keep their input order; confidences 0.3, 0.9, 0.6 come out
    as 0.9, 0.6, 0.3. *)
Theorem detections_sorted_descending_stable :
  (forall detections,
      Forall (fun d => is_nan (confidence d) = false) detections ->
      Permutation (detections_sorted detections) detections
      /\ StronglySorted (fun a b => float_le (confidence b) (confidence a) = true)
           (detections_sorted detections)
      /\ forall c,
           List.filter (fun d => float_eq (confidence d) c) (detections_sorted detections)
           = List.filter (fun d => float_eq (confidence d) c) detections)
  /\ (forall a b c,
        detections_sorted [mkDetection a f0_3; mkDetection b f0_9; mkDetection c f0_6]
        = [mkDetection b f0_9; mkDetection c f0_6; mkDetection a f0_3]).
Proof.
  split; [| intros; reflexivity].
  intros detections Hnan.
  destruct (sorted_reverse_spec float_lt float_eq confidence
              (fun x => is_nan x = false)
              float_lt_asym float_lt_negtrans float_eq_no_lt detections Hnan)
    as (Hperm & Hsorted & Hstable).
  split_and!; [exact Hperm | | exact Hstable].
  apply descending_le; [| exact Hsorted].
  unfold detections_sorted. by rewrite Hperm.
Qed.

Lemma detections_sorted_descending_stable_witness :
  Permutation (detections_sorted tied_detections) tied_detections
  /\ StronglySorted (fun a b => float_le (confidence b) (confidence a) = true)
       (detections_sorted tied_detections)
  /\ forall c,
       List.filter (fun d => float_eq (confidence d) c) (detections_sorted tied_detections)
       = List.filter (fun d => float_eq (confidence d) c) tied_detections.
Proof.
  apply (proj1 detections_sorted_descending_stable tied_detections).
  repeat constructor.
Defined.

(** Two detections at 0.9: the one that came first is shown first. *)
Example detections_sorted_tie :
  detections_sorted tied_detections
  = [mkDetection "Pituitary" f0_9; mkDetection "Unknown (7)" f0_9;
     mkDetection "Glioma" f0_3].
Proof. reflexivity. Qed.


(** * Further properties *)

(** ** More on video frame extraction *)

(** Every call returns, and what it returns has one of five shapes. *)
Lemma extract_frame_from_video_cases w video_file frame_number s :
  exists r s',
    extract_frame_from_video w video_file frame_number s = (Returns r, s')
    /\ extracted_shape r.
Proof.
  unfold_run. repeat step; do 2 eexists; (split; [reflexivity | shape_solve]).
Qed.



(** X3: a container OpenCV cannot open gives
    [(None, 0, "Gagal membuka file video.")], and the temporary file is
    removed before the call returns. *)
Theorem extract_frame_from_video_not_opened w video_file stem cap frame_number s :
  captured_as w video_file stem cap ->
  isOpened cap = false ->
  exists s',
    extract_frame_from_video w video_file frame_number s
      = (Returns (None, 0, Some "Gagal membuka file video."), s')
    /\ stem +:+ ".mp4" ∉ fs s'.
Proof.
  intros (Hs & (data & Hg & Hw) & Hc & Ho) Hop.
  unfold_run. rewrite Hs, Hg, Hw, Hc. cbn [fst snd fs video_path pos_frames seeks].
  rewrite Ho, Hop. cbn [negb fst snd fs video_path pos_frames seeks].
  rewrite bool_decide_eq_true_2 by (set_unfold; tauto).
  eexists; split; [reflexivity | cbn; set_unfold; tauto].
Qed.

Lemma extract_frame_from_video_not_opened_witness :
  exists s',
    extract_frame_from_video unreadable_world sample_upload 2 (initial ∅)
      = (Returns (None, 0, Some "Gagal membuka file video."), s')
    /\ "/tmp/tmpk3x9q2ab" +:+ ".mp4" ∉ fs s'.
Proof.
  apply (extract_frame_from_video_not_opened unreadable_world sample_upload
           "/tmp/tmpk3x9q2ab" unopened_capture).
  - repeat split; try reflexivity. exists []. split; reflexivity.
  - reflexivity.
Defined.

(** X4: when the read at the sought position yields a frame, the call
    returns that frame, converted by [cv2.cvtColor] and wrapped by
    [Image.fromarray], together with the frame count of the video and no
    error; the temporary file is gone. *)
Theorem extract_frame_from_video_success w video_file stem cap total
    frame_number moved frame frame_rgb img s :
  opens_as w video_file stem cap ->
  get_frame_count cap = Returns total ->
  total <> 0 ->
  set_pos_frames cap (Z.min frame_number (total - 1)) = Returns moved ->
  read_at cap (position_after_seek (Z.min frame_number (total - 1)) moved)
    = Returns (true, frame) ->
  release cap = Returns tt ->
  cv2_cvtColor_BGR2RGB w frame = Returns frame_rgb ->
  Image_fromarray w frame_rgb = Returns img ->
  exists s',
    extract_frame_from_video w video_file frame_number s
      = (Returns (Some img, total, None), s')
    /\ stem +:+ ".mp4" ∉ fs s'.
Proof.
  intros (Hs & (data & Hg & Hw) & Hc & Ho & Hop) Hn Hne Hset Hread Hrel Hcvt Himg.
  apply Z.eqb_neq in Hne.
  unfold_run. rewrite Hs, Hg, Hw, Hc. cbn [fst snd fs video_path pos_frames seeks].
  rewrite Ho, Hop, Hn. cbn [negb fst snd fs video_path pos_frames seeks].
  rewrite Hne, Hset.
  destruct moved; cbn [position_after_seek fst snd fs video_path pos_frames seeks] in *;
    rewrite Hread, Hrel; cbn [fst snd fs video_path pos_frames seeks];
    rewrite bool_decide_eq_true_2 by (set_unfold; tauto);
    cbn [fst snd fs video_path pos_frames seeks]; rewrite Hcvt, Himg;
    (eexists; split; [reflexivity | cbn; set_unfold; tauto]).
Qed.

Lemma extract_frame_from_video_success_witness :
  exists s',
    extract_frame_from_video (sample_world five_frames) sample_upload 9 (initial ∅)
      = (Returns (Some (mkImage "RGB" (bgr_to_rgb (sample_frame 14))), 5, None), s')
    /\ "/tmp/tmpk3x9q2ab" +:+ ".mp4" ∉ fs s'.
Proof.
  apply (extract_frame_from_video_success (sample_world five_frames) sample_upload
           "/tmp/tmpk3x9q2ab" (sample_capture five_frames) 5 9 true
           (sample_frame 14) (bgr_to_rgb (sample_frame 14))).
  - repeat split; try reflexivity. exists []. split; reflexivity.
  - reflexivity.
  - lia.
  - reflexivity.
  - reflexivity.
  - reflexivity.
  - reflexivity.
  - reflexivity.
Defined.

(** X5: when the read yields no frame, the call returns
    [(None, total, "Gagal mengekstrak frame yang dipilih.")]: the count of
    the video comes back beside the failure, and the temporary file is
    gone. *)
Theorem extract_frame_from_video_read_failure w video_file stem cap total
    frame_number moved frame s :
  opens_as w video_file stem cap ->
  get_frame_count cap = Returns total ->
  total <> 0 ->
  set_pos_frames cap (Z.min frame_number (total - 1)) = Returns moved ->
  read_at cap (position_after_seek (Z.min frame_number (total - 1)) moved)
    = Returns (false, frame) ->
  release cap = Returns tt ->
  exists s',
    extract_frame_from_video w video_file frame_number s
      = (Returns (None, total, Some "Gagal mengekstrak frame yang dipilih."), s')
    /\ stem +:+ ".mp4" ∉ fs s'.
Proof.
  intros (Hs & (data & Hg & Hw) & Hc & Ho & Hop) Hn Hne Hset Hread Hrel.
  apply Z.eqb_neq in Hne.
  unfold_run. rewrite Hs, Hg, Hw, Hc. cbn [fst snd fs video_path pos_frames seeks].
  rewrite Ho, Hop, Hn. cbn [negb fst snd fs video_path pos_frames seeks].
  rewrite Hne, Hset.
  destruct moved; cbn [position_after_seek fst snd fs video_path pos_frames seeks] in *;
    rewrite Hread, Hrel; cbn [fst snd fs video_path pos_frames seeks];
    rewrite bool_decide_eq_true_2 by (set_unfold; tauto);
    (eexists; split; [reflexivity | cbn; set_unfold; tauto]).
Qed.

Lemma extract_frame_from_video_read_failure_witness :
  exists s',
    extract_frame_from_video broken_world sample_upload 2 (initial ∅)
      = (Returns (None, 5, Some "Gagal mengekstrak frame yang dipilih."), s')
    /\ "/tmp/tmpk3x9q2ab" +:+ ".mp4" ∉ fs s'.
Proof.
  apply (extract_frame_from_video_read_failure broken_world sample_upload
           "/tmp/tmpk3x9q2ab" broken_capture 5 2 true []).
  - repeat split; try reflexivity. exists []. split; reflexivity.
  - reflexivity.
  - lia.
  - reflexivity.
  - reflexivity.
  - reflexivity.
Defined.



(** X7: the call creates and deletes nothing but its own temporary file:
    any other path exists afterwards exactly if it existed before. *)
Theorem extract_frame_from_video_other_files w video_file frame_number s p :
  (forall stem, mkstemp w = Returns stem -> p <> stem +:+ ".mp4") ->
  p ∈ fs (snd (extract_frame_from_video w video_file frame_number s)) <-> p ∈ fs s.
Proof.
  intros Hp. unfold_run.
  destruct (mkstemp w) as [stem | e] eqn:Hs;
    cbn [fst snd fs video_path pos_frames seeks]; [| reflexivity].
  specialize (Hp stem eq_refl).
  repeat step; fs_facts; set_unfold; tauto.
Qed.

Lemma extract_frame_from_video_other_files_witness :
  "best.pt" ∈ fs (snd (extract_frame_from_video (sample_world five_frames)
                         sample_upload 2 (initial {["best.pt"]})))
  <-> "best.pt" ∈ fs (initial {["best.pt"]}).
Proof.
  apply (extract_frame_from_video_other_files (sample_world five_frames)
           sample_upload 2 (initial {["best.pt"]}) "best.pt").
  intros stem Hstem. inversion Hstem. discriminate.
Defined.

(** ** More on the detector gateway *)

(** X8: with ultralytics imported and the model file in place,
    [load_model] returns the detector [YOLO] built and no error; when
    [YOLO] raises, it returns no detector and the message of that
    exception, unchanged. *)
Theorem load_model_existing_path h model_path :
  ULTRALYTICS_AVAILABLE h = true ->
  model_path ∈ disk h ->
  load_model h model_path
    = match YOLO h model_path with
      | Returns model => Returns (Some model, None)
      | Raises e => Returns (None, Some e)
      end.
Proof.
  intros Hav Hex. unfold load_model.
  rewrite Hav, bool_decide_eq_true_2 by assumption. cbn.
  destruct (YOLO h model_path); reflexivity.
Qed.

Lemma load_model_existing_path_witness :
  load_model host_with_model "best.pt"
    = match YOLO host_with_model "best.pt" with
      | Returns model => Returns (Some model, None)
      | Raises e => Returns (None, Some e)
      end.
Proof.
  apply (load_model_existing_path host_with_model "best.pt").
  - reflexivity.
  - unfold host_with_model; cbn. set_unfold. reflexivity.
Defined.

(** X9: whatever the host, [load_model] returns a pair with exactly one
    side filled: a detector and no message, or a message and no detector. *)
Theorem load_model_detector_xor_error h model_path :
  exists model err,
    load_model h model_path = Returns (model, err)
    /\ (is_Some model <-> err = None).
Proof.
  unfold load_model.
  destruct (ULTRALYTICS_AVAILABLE h), (bool_decide (model_path ∈ disk h)); cbn;
    try (do 2 eexists; split; [reflexivity |];
         split; [intros [? H]; discriminate H | intros H; discriminate H]).
  destruct (YOLO h model_path); cbn; do 2 eexists; (split; [reflexivity |]).
  - split; [reflexivity | eauto].
  - split; [intros [? H]; discriminate H | intros H; discriminate H].
Qed.

Lemma run_loads_attempts calls : forall c,
  cache_exact c ->
  cache_exact (snd (run_loads calls c))
  /\ forall p, p ∈ attempts (snd (run_loads calls c))
               <-> p ∈ attempts c \/ p ∈ calls.*2.
Proof.
  induction calls as [| [h0 p0] rest IH]; intros c Hex.
  - cbn. split; [assumption |]. intros p. set_unfold. tauto.
  - cbn [run_loads].
    assert (Hstep : cache_exact (snd (load_model_cached h0 p0 c))
              /\ forall p, p ∈ attempts (snd (load_model_cached h0 p0 c))
                           <-> p ∈ attempts c \/ p = p0).
    { unfold load_model_cached, cache_resource.
      destruct (store c !! p0) as [r |] eqn:Hlook; cbn.
      - split; [assumption |]. intros p. split; [tauto |].
        intros [? | ->]; [assumption |]. apply Hex. rewrite Hlook. eauto.
      - destruct (load_model_never_raises h0 p0) as [loaded ->]. cbn. split.
        + intros p. cbn. rewrite elem_of_cons, (Hex p).
          destruct (decide (p = p0)) as [-> | Hne].
          * rewrite lookup_insert_eq. split; eauto.
          * rewrite lookup_insert_ne by congruence. tauto.
        + intros p. rewrite elem_of_cons. tauto. }
    destruct (load_model_cached h0 p0 c) as [r0 c1]. cbn in Hstep.
    destruct Hstep as [Hex1 Hatt1].
    specialize (IH c1 Hex1) as [IHex IHatt].
    destruct (run_loads rest c1) as [rs c2]. cbn in *.
    split; [assumption |]. intros p. rewrite IHatt, Hatt1.
    rewrite elem_of_cons. tauto.
Qed.

(** X10: over a process lifetime that starts with an empty cache, the
    paths [load_model] was really run on are exactly the paths that were
    asked for, each of them once. *)
Theorem load_model_attempted_exactly_once calls :
  NoDup (attempts (snd (run_loads calls empty_cache)))
  /\ forall p, p ∈ attempts (snd (run_loads calls empty_cache)) <-> p ∈ calls.*2.
Proof.
  split.
  - apply (run_loads_spec calls empty_cache cache_ok_empty).
  - intros p.
    assert (Hex : cache_exact empty_cache).
    { intros q. cbn. rewrite lookup_empty. split.
      - intros H. by apply elem_of_nil in H.
      - intros [? H]. discriminate H. }
    destruct (run_loads_attempts calls empty_cache Hex) as [_ Hatt].
    rewrite Hatt. cbn. set_unfold. tauto.
Qed.

(** ** More on the detection loop *)

(** X11: when the loop returns, the records carry the confidences of the
    boxes, one for one and in the order of the boxes. *)
Theorem detections_of_confidences boxes : forall ds,
  detections_of boxes = Returns ds ->
  map confidence ds = map conf boxes.
Proof.
  induction boxes as [| b boxes IH]; cbn; intros ds Hds.
  - by inversion Hds.
  - destruct (class_name_of (cls b)); cbn in Hds; [| discriminate].
    destruct (detections_of boxes) as [ds' |]; cbn in Hds; [| discriminate].
    inversion Hds; subst. cbn. f_equal. by apply IH.
Qed.

Lemma detections_of_confidences_witness :
  map confidence
    [mkDetection "Glioma" f0_3; mkDetection "Unknown (7)" f0_9;
     mkDetection "Pituitary" f0_6]
  = map conf sample_candidates.
Proof.
  apply (detections_of_confidences sample_candidates). reflexivity.
Defined.

(** The label of a class index, range by range. *)
Lemma class_name_of_cases class_id :
  (class_id < -4 /\ class_name_of class_id = Raises "list index out of range")
  \/ (-4 <= class_id < 0
      /\ class_name_of class_id = class_name_of (class_id + 4)
      /\ exists name, class_name_of class_id = Returns name)
  \/ (0 <= class_id /\ exists name, class_name_of class_id = Returns name).
Proof.
  destruct (Z.lt_ge_cases class_id (-4)) as [Hlow | Hge].
  - left. split; [assumption |].
    unfold class_name_of, getitem.
    change (Z.of_nat (length class_names)) with 4.
    rewrite (proj2 (Z.ltb_lt class_id 4)) by lia.
    rewrite (proj2 (Z.ltb_lt class_id 0)) by lia.
    rewrite (proj2 (Z.leb_gt 0 (class_id + 4))) by lia. reflexivity.
  - destruct (Z.lt_ge_cases class_id 0) as [Hneg | Hnn].
    + right; left. split; [lia |].
      assert (Hcases : class_id = -4 \/ class_id = -3 \/ class_id = -2 \/ class_id = -1)
        by lia.
      destruct Hcases as [-> | [-> | [-> | ->]]];
        (split; [reflexivity | eexists; reflexivity]).
    + right; right. split; [assumption |].
      destruct (class_name_of_nonneg class_id Hnn) as (name & Hname & _). eauto.
Qed.

(** X12: the loop fails exactly when some box has a class index below
    [-4], the one range in which [class_names[class_id]] is reached with
    an index Python rejects; the exception is the [IndexError] of the list. *)
Theorem detections_of_raises_iff boxes :
  (exists e, detections_of boxes = Raises e)
  <-> Exists (fun b => cls b < -4) boxes.
Proof.
  induction boxes as [| b boxes IH]; cbn.
  - split; [intros [e H]; discriminate H | intros H; inversion H].
  - destruct (class_name_of_cases (cls b))
      as [(Hlow & ->) | [(Hin & _ & name & ->) | (Hnn & name & ->)]]; cbn.
    + split; [intros _; by left | eauto].
    + destruct (detections_of boxes) as [ds |] eqn:Hds; cbn.
      * split; [intros [e H]; discriminate H |].
        intros H. apply Exists_cons in H as [H | H]; [lia |].
        apply IH in H as [e H]. discriminate H.
      * split; [intros _; right; apply IH; eauto | eauto].
    + destruct (detections_of boxes) as [ds |] eqn:Hds; cbn.
      * split; [intros [e H]; discriminate H |].
        intros H. apply Exists_cons in H as [H | H]; [lia |].
        apply IH in H as [e H]. discriminate H.
      * split; [intros _; right; apply IH; eauto | eauto].
Qed.

(** X13: the guard [class_id < len(class_names)] lets the indices [-4] to
    [-1] through to the list, where Python counts them from the end: such
    a box gets the label of index [class_id + 4]. *)
Theorem class_name_of_counts_from_end class_id :
  -4 <= class_id < 0 ->
  class_name_of class_id = class_name_of (class_id + 4)
  /\ exists name, class_name_of class_id = Returns name /\ name ∈ class_names.
Proof.
  intros Hin.
  assert (Hcases : class_id = -4 \/ class_id = -3 \/ class_id = -2 \/ class_id = -1)
    by lia.
  destruct Hcases as [-> | [-> | [-> | ->]]];
    (split; [reflexivity |]; eexists; split; [reflexivity |]);
    unfold class_names; set_unfold; tauto.
Qed.

Lemma class_name_of_counts_from_end_witness :
  class_name_of (-2) = class_name_of (-2 + 4)
  /\ exists name, class_name_of (-2) = Returns name /\ name ∈ class_names.
Proof.
  apply (class_name_of_counts_from_end (-2)). lia.
Defined.

Lemma str_int_inj i j : str_int i = str_int j -> i = j.
Proof.
  unfold str_int. intros H.
  assert (Hd : Some (Z.to_int i) = Some (Z.to_int j))
    by (rewrite <- !NilEmpty.isi; by rewrite H).
  inversion Hd as [Hij].
  rewrite <- (DecimalZ.of_to i), <- (DecimalZ.of_to j). by rewrite Hij.
Qed.

Lemma append_paren_inj s1 : forall s2, s1 +:+ ")" = s2 +:+ ")" -> s1 = s2.
Proof.
  induction s1 as [| c s1 IH]; intros [| d s2] H; cbn in H.
  - reflexivity.
  - inversion H as [[Hc Hs]]. destruct s2; discriminate Hs.
  - inversion H as [[Hc Hs]]. destruct s1; discriminate Hs.
  - inversion H as [[Hc Hs]]. f_equal. by apply IH.
Qed.

(** X14: two different unknown classes never share a label: from 4 on,
    the label determines the class index. *)
Theorem class_name_of_unknown_inj i j :
  4 <= i -> 4 <= j -> i <> j ->
  class_name_of i <> class_name_of j.
Proof.
  intros Hi Hj Hne. unfold class_name_of.
  change (Z.of_nat (length class_names)) with 4.
  rewrite (proj2 (Z.ltb_ge i 4)), (proj2 (Z.ltb_ge j 4)) by lia.
  intros H. inversion H as [Hs].
  apply Hne, str_int_inj. by apply append_paren_inj.
Qed.

Lemma class_name_of_unknown_inj_witness :
  class_name_of 7 <> class_name_of 12.
Proof.
  apply (class_name_of_unknown_inj 7 12); lia.
Defined.

(** ** [get_prediction_style] *)

Lemma prediction_styles_lookup s :
  prediction_styles !! s
  = if decide ("Glioma" = s) then Some "glioma"
    else if decide ("Meningioma" = s) then Some "meningioma"
    else if decide ("No Tumor" = s) then Some "no-tumor"
    else if decide ("Pituitary" = s) then Some "pituitary"
    else None.
Proof.
  unfold prediction_styles. cbn [list_to_map foldr fst snd].
  rewrite !lookup_insert, lookup_empty. reflexivity.
Qed.

(** X15: whatever the label, the style is one of the four classes the
    stylesheet defines, and any label outside the known four gets
    ["no-tumor"]. *)
Theorem get_prediction_style_css class_name :
  get_prediction_style class_name ∈ css_classes
  /\ (class_name ∉ class_names -> get_prediction_style class_name = "no-tumor").
Proof.
  unfold get_prediction_style. rewrite prediction_styles_lookup.
  unfold css_classes, class_names.
  repeat case_decide; subst; cbn; (split; [set_unfold; tauto |]);
    intros Hnot; try reflexivity; exfalso; apply Hnot; set_unfold; tauto.
Qed.

(** X16: a detection of an unknown class is drawn in the style of
    "No Tumor", and still counts as a finding for the notice that asks
    the user to consult a professional. *)
Theorem unknown_class_style class_id :
  4 <= class_id ->
  exists name,
    class_name_of class_id = Returns name
    /\ get_prediction_style name = "no-tumor"
    /\ forall c, any_tumor [mkDetection name c] = true.
Proof.
  intros Hge. unfold class_name_of.
  change (Z.of_nat (length class_names)) with 4.
  rewrite (proj2 (Z.ltb_ge class_id 4)) by lia.
  eexists; split; [reflexivity |]. split; [| intros c; reflexivity].
  unfold get_prediction_style. rewrite prediction_styles_lookup.
  repeat case_decide; try discriminate; reflexivity.
Qed.

Lemma unknown_class_style_witness :
  exists name,
    class_name_of 7 = Returns name
    /\ get_prediction_style name = "no-tumor"
    /\ forall c, any_tumor [mkDetection name c] = true.
Proof.
  apply (unknown_class_style 7). lia.
Defined.

(** ** More on the display sort *)

Lemma list_sort_id {A K} (lt : K -> K -> bool) (key : A -> K) (l : list A) :
  StronglySorted (ascending lt key) l -> list_sort lt key l = l.
Proof.
  induction 1 as [| x l Hs IH Hx]; [reflexivity |].
  cbn [list_sort foldr]. fold (list_sort lt key l). rewrite IH.
  destruct l as [| y l']; [reflexivity |].
  cbn [insort]. apply Forall_cons in Hx as [Hxy _].
  unfold ascending in Hxy. by rewrite Hxy.
Qed.

(** X17: sorting the displayed list again changes nothing. *)
Theorem detections_sorted_idempotent detections :
  Forall (fun d => is_nan (confidence d) = false) detections ->
  detections_sorted (detections_sorted detections) = detections_sorted detections.
Proof.
  intros Hnan. unfold detections_sorted, sorted.
  rewrite rev_involutive. f_equal. apply list_sort_id.
  apply (list_sort_sorted float_lt confidence (fun x => is_nan x = false)
           float_lt_asym float_lt_negtrans).
  by rewrite <- Permutation_rev.
Qed.

Lemma detections_sorted_idempotent_witness :
  detections_sorted (detections_sorted tied_detections)
  = detections_sorted tied_detections.
Proof.
  apply (detections_sorted_idempotent tied_detections). repeat constructor.
Defined.

(** ** The session *)

Lemma delete_if_present {V} (ss : gmap string V) key :
  (if bool_decide (is_Some (ss !! key)) then delete key ss else ss) = delete key ss.
Proof.
  case_bool_decide as Hin; [reflexivity |].
  symmetry. apply delete_id. by apply eq_None_not_Some.
Qed.

Lemma clear_results_delete {V} (ss : gmap string V) :
  clear_results ss
  = delete "selected_image" (delete "detections" (delete "result_image" ss)).
Proof.
  unfold clear_results. cbn [foldl]. by rewrite !delete_if_present.
Qed.

(** X18: [clear_results] removes the three result keys, whether they were
    present or not, and leaves every other key of the session (the state
    of the widgets, for one) as it was. *)
Theorem clear_results_lookup {V} (session_state : gmap string V) key :
  clear_results session_state !! key
  = if bool_decide (key ∈ ["result_image"; "detections"; "selected_image"])
    then None else session_state !! key.
Proof.
  rewrite clear_results_delete, !lookup_delete.
  case_bool_decide as Hin; set_unfold in Hin;
    destruct (decide ("selected_image" = key)), (decide ("detections" = key)),
      (decide ("result_image" = key));
    subst; try reflexivity; exfalso; intuition congruence.
Qed.

(** X19: pressing an "analyze" button always leaves a session that asks
    for an analysis: the chosen image is in, and no result or detection
    of an earlier analysis survives. *)
Theorem select_image_opens_gate image session_state :
  needs_analysis (select_image image session_state) = true
  /\ select_image image session_state !! "selected_image" = Some (SImage image)
  /\ select_image image session_state !! "result_image" = None
  /\ select_image image session_state !! "detections" = None.
Proof.
  unfold needs_analysis, select_image.
  rewrite lookup_insert_eq.
  rewrite !lookup_insert_ne by discriminate.
  rewrite !clear_results_lookup. cbn.
  split_and!; reflexivity.
Qed.

Ltac typed_solve :=
  unfold session_typed in *;
  repeat match goal with H : _ /\ _ |- _ => destruct H end;
  split_and!; intros v Hv;
  repeat (rewrite lookup_insert in Hv; case_decide; try discriminate);
  try rewrite clear_results_lookup in Hv; cbn in Hv;
  simplify_eq; eauto.

(** X20: selecting, clearing and analysing keep the session well-typed:
    an image under ["selected_image"], an array under ["result_image"], a
    list of detections under ["detections"]. *)
Theorem session_typed_preserved h w result_plot model_path confidence_threshold c
    image session_state :
  session_typed session_state ->
  session_typed (clear_results session_state)
  /\ session_typed (select_image image session_state)
  /\ session_typed
       (analyze h w result_plot model_path confidence_threshold c session_state).1.2.
Proof.
  intros Htyped. split_and!.
  - typed_solve.
  - unfold select_image. typed_solve.
  - unfold analyze.
    destruct (needs_analysis session_state); [| assumption].
    destruct (load_model_cached h model_path c) as [[[model err] | e] c']; cbn;
      [| assumption].
    destruct (truthy_opt err); [assumption |].
    destruct model as [model |]; [| assumption].
    destruct (session_state !! "selected_image") as [[img | a | ds] |]; cbn;
      try assumption.
    destruct (result_plot _ _) as [bgr |]; cbn; [| assumption].
    destruct (cv2_cvtColor_BGR2RGB w bgr) as [rgb |]; cbn; [| assumption].
    destruct (detections_of _) as [ds |]; cbn; typed_solve.
Qed.

Lemma session_typed_preserved_witness :
  session_typed (clear_results sample_session)
  /\ session_typed (select_image sample_image sample_session)
  /\ session_typed
       (analyze host_with_model (sample_world []) sample_plot "best.pt" f0_5
          empty_cache sample_session).1.2.
Proof.
  apply (session_typed_preserved host_with_model (sample_world []) sample_plot
           "best.pt" f0_5 empty_cache sample_image sample_session).
  unfold sample_session, select_image, session_typed.
  split_and!; intros v Hv;
    rewrite lookup_insert in Hv; case_decide; try discriminate;
    try rewrite clear_results_lookup in Hv; cbn in Hv; simplify_eq; eauto.
Defined.

Lemma needs_analysis_spec {V} (ss : gmap string V) :
  needs_analysis ss = true
  <-> is_Some (ss !! "selected_image") /\ ss !! "result_image" = None.
Proof.
  unfold needs_analysis. rewrite andb_true_iff, negb_true_iff.
  rewrite bool_decide_eq_true, bool_decide_eq_false.
  rewrite <- eq_None_not_Some. reflexivity.
Qed.

(** X21: an analysis that goes through stores the plotted image and the
    detections of the loop, shows no error, and closes the gate: running
    the block again, on any host, does nothing until an image is selected
    anew. *)
Theorem analyze_success h w result_plot model_path confidence_threshold c
    session_state image model bgr rgb ds :
  session_state !! "selected_image" = Some (SImage image) ->
  session_state !! "result_image" = None ->
  (load_model_cached h model_path c).1 = Returns (Some model, None) ->
  result_plot image (detect model image confidence_threshold) = Returns bgr ->
  cv2_cvtColor_BGR2RGB w bgr = Returns rgb ->
  detections_of (detect model image confidence_threshold) = Returns ds ->
  let done :=
    <["detections" := SDetections ds]>
      (<["result_image" := SArray rgb]> session_state) in
  analyze h w result_plot model_path confidence_threshold c session_state
    = (Returns [], done, (load_model_cached h model_path c).2)
  /\ needs_analysis done = false
  /\ forall h' w' plot' path' t' c',
       analyze h' w' plot' path' t' c' done = (Returns [], done, c').
Proof.
  intros Hsel Hres Hload Hplot Hcvt Hds done.
  assert (Hgate : needs_analysis session_state = true)
    by (apply needs_analysis_spec; rewrite Hsel; eauto).
  assert (Hclosed : needs_analysis done = false).
  { apply not_true_is_false. rewrite needs_analysis_spec. intros [_ Hnone].
    unfold done in Hnone. rewrite lookup_insert_ne in Hnone by discriminate.
    rewrite lookup_insert_eq in Hnone. discriminate Hnone. }
  split_and!.
  - unfold analyze. rewrite Hgate.
    destruct (load_model_cached h model_path c) as [r c']. cbn in Hload. subst r.
    cbn. rewrite Hsel, Hplot. cbn. rewrite Hcvt, Hds. reflexivity.
  - exact Hclosed.
  - intros. unfold analyze. rewrite Hclosed. reflexivity.
Qed.

Lemma analyze_success_witness :
  let done :=
    <["detections" := SDetections
        [mkDetection "Unknown (7)" f0_9; mkDetection "Pituitary" f0_6]]>
      (<["result_image" := SArray (bgr_to_rgb (sample_frame 0))]> sample_session) in
  analyze host_with_model (sample_world []) sample_plot "best.pt" f0_5
    empty_cache sample_session
    = (Returns [], done, (load_model_cached host_with_model "best.pt" empty_cache).2)
  /\ needs_analysis done = false
  /\ forall h' w' plot' path' t' c',
       analyze h' w' plot' path' t' c' done = (Returns [], done, c').
Proof.
  apply (analyze_success host_with_model (sample_world []) sample_plot "best.pt"
           f0_5 empty_cache sample_session sample_image sample_detector
           (sample_frame 0) (bgr_to_rgb (sample_frame 0))).
  - unfold sample_session, select_image. apply lookup_insert_eq.
  - unfold sample_session, select_image.
    rewrite lookup_insert_ne by discriminate.
    rewrite clear_results_lookup. reflexivity.
  - unfold load_model_cached, cache_resource, load_model.
    cbn [store empty_cache]. rewrite lookup_empty.
    cbn [host_with_model ULTRALYTICS_AVAILABLE disk YOLO negb].
    rewrite bool_decide_eq_true_2 by (set_unfold; reflexivity).
    reflexivity.
  - reflexivity.
  - reflexivity.
  - reflexivity.
Defined.

(** X22: a model path that does not exist makes the block show
    "Failed to load model: ..." and leave the session as it was; and since
    the failure is cached, every later run of the block for that path
    shows the same message, on whatever host, with no new load. *)
Theorem analyze_load_failure_sticky h w result_plot model_path
    confidence_threshold c session_state :
  needs_analysis session_state = true ->
  store c !! model_path = None ->
  model_path ∉ disk h ->
  let message :=
    "Failed to load model: "
    +:+ (if ULTRALYTICS_AVAILABLE h
         then "File model tidak ditemukan: " +:+ model_path
         else "Library 'ultralytics' tidak tersedia.") in
  exists c',
    analyze h w result_plot model_path confidence_threshold c session_state
      = (Returns [message], session_state, c')
    /\ attempts c' = model_path :: attempts c
    /\ forall h' w' plot' t',
         analyze h' w' plot' model_path t' c' session_state
           = (Returns [message], session_state, c').
Proof.
  intros Hgate Hmiss Hnot message.
  assert (Hload : load_model h model_path
            = Returns (None, Some (if ULTRALYTICS_AVAILABLE h
                                   then "File model tidak ditemukan: " +:+ model_path
                                   else "Library 'ultralytics' tidak tersedia."))).
  { unfold load_model. rewrite bool_decide_eq_false_2 by assumption.
    destruct (ULTRALYTICS_AVAILABLE h); reflexivity. }
  assert (Htruthy : truthy (if ULTRALYTICS_AVAILABLE h
                            then "File model tidak ditemukan: " +:+ model_path
                            else "Library 'ultralytics' tidak tersedia.") = true)
    by (destruct (ULTRALYTICS_AVAILABLE h); reflexivity).
  eexists. split_and!.
  - unfold analyze, load_model_cached, cache_resource.
    rewrite Hgate, Hmiss, Hload. cbn [truthy_opt]. rewrite Htruthy. reflexivity.
  - reflexivity.
  - intros. unfold analyze, load_model_cached, cache_resource.
    rewrite Hgate. cbn [store]. rewrite lookup_insert_eq.
    cbn [truthy_opt]. rewrite Htruthy. reflexivity.
Qed.

Lemma analyze_load_failure_sticky_witness :
  let message :=
    "Failed to load model: "
    +:+ (if ULTRALYTICS_AVAILABLE bare_host
         then "File model tidak ditemukan: " +:+ "best.pt"
         else "Library 'ultralytics' tidak tersedia.") in
  exists c',
    analyze bare_host (sample_world []) sample_plot "best.pt" f0_5 empty_cache
      sample_session
      = (Returns [message], sample_session, c')
    /\ attempts c' = "best.pt" :: attempts empty_cache
    /\ forall h' w' plot' t',
         analyze h' w' plot' "best.pt" t' c' sample_session
           = (Returns [message], sample_session, c').
Proof.
  apply (analyze_load_failure_sticky bare_host (sample_world []) sample_plot
           "best.pt" f0_5 empty_cache sample_session).
  - vm_compute. reflexivity.
  - reflexivity.
  - unfold bare_host; cbn. set_unfold. tauto.
Defined.

(** X23: the test [if model_error:] takes an empty message for "no
    error".  When [YOLO] raises an exception whose message is empty, the
    block reports no load failure: it goes on to call the detector it does
    not have, and raises [TypeError]. *)
Theorem analyze_empty_load_message h w result_plot model_path
    confidence_threshold c session_state :
  needs_analysis session_state = true ->
  store c !! model_path = None ->
  ULTRALYTICS_AVAILABLE h = true ->
  model_path ∈ disk h ->
  YOLO h model_path = Raises "" ->
  load_model h model_path = Returns (None, Some "")
  /\ exists c',
       analyze h w result_plot model_path confidence_threshold c session_state
         = (Raises "'NoneType' object is not callable", session_state, c').
Proof.
  intros Hgate Hmiss Hav Hex Hyolo.
  assert (Hload : load_model h model_path = Returns (None, Some "")).
  { unfold load_model. rewrite Hav, bool_decide_eq_true_2 by assumption. cbn.
    rewrite Hyolo. reflexivity. }
  split; [exact Hload |]. eexists.
  unfold analyze, load_model_cached, cache_resource.
  rewrite Hgate, Hmiss, Hload. reflexivity.
Qed.

Lemma analyze_empty_load_message_witness :
  load_model silent_failure_host "best.pt" = Returns (None, Some "")
  /\ exists c',
       analyze silent_failure_host (sample_world []) sample_plot "best.pt" f0_5
         empty_cache sample_session
         = (Raises "'NoneType' object is not callable", sample_session, c').
Proof.
  apply (analyze_empty_load_message silent_failure_host (sample_world [])
           sample_plot "best.pt" f0_5 empty_cache sample_session).
  - vm_compute. reflexivity.
  - reflexivity.
  - reflexivity.
  - unfold silent_failure_host; cbn. set_unfold. reflexivity.
  - reflexivity.
Defined.

(** ** The video tab *)

Ltac unfold_tab :=
  unfold video_tab, call, mbind, M_bind, mbind_M, mret, M_ret, mret_M in *.

Lemma half_in_range total : 0 < total -> 0 <= total / 2 <= total - 1.
Proof.
  intros Hpos. split.
  - apply Z.div_pos; lia.
  - assert (total / 2 < total) by (apply Z.div_lt; lia). lia.
Qed.

(** X24: when the probing call reports a positive frame count and no
    error, the tab asks the slider for the range from [0] to
    [total_frames - 1] with [total_frames // 2] as initial position, which
    always lies in that range; for a video of one frame the range is from
    [0] to [0]; and an exception the slider raises for the request is not
    caught: it leaves the tab. *)
Theorem video_tab_slider_request w1 w2 slider uploaded_video s img total s1 :
  extract_frame_from_video w1 uploaded_video 0 s = (Returns (img, total, None), s1) ->
  0 < total ->
  0 <= total / 2 <= total - 1
  /\ (total = 1 -> total - 1 = 0 /\ total / 2 = 0)
  /\ (forall e, slider 0 (total - 1) (total / 2) = Raises e ->
        video_tab w1 w2 slider uploaded_video s = (Raises e, s1)).
Proof.
  intros Hprobe Hpos. split; [| split].
  - exact (half_in_range total Hpos).
  - intros ->. split; reflexivity.
  - intros e Hslider. unfold_tab. rewrite Hprobe. cbn [truthy_opt].
    rewrite (proj2 (Z.gtb_lt total 0)) by lia.
    rewrite Hslider. reflexivity.
Qed.

Lemma video_tab_slider_request_witness :
  (0 <= 1 / 2 <= 1 - 1
   /\ (1 = 1 -> 1 - 1 = 0 /\ 1 / 2 = 0)
   /\ (forall e, strict_slider 0 (1 - 1) (1 / 2) = Raises e ->
         video_tab (sample_world [sample_frame 10]) (sample_world [sample_frame 10])
           strict_slider sample_upload (initial ∅)
         = (Raises e,
            snd (extract_frame_from_video (sample_world [sample_frame 10])
                   sample_upload 0 (initial ∅)))))
  /\ fst (video_tab (sample_world [sample_frame 10]) (sample_world [sample_frame 10])
            strict_slider sample_upload (initial ∅))
     = Raises "Slider `min_value` must be less than the `max_value`.".
Proof.
  assert (Hprobe : extract_frame_from_video (sample_world [sample_frame 10])
                     sample_upload 0 (initial ∅)
                   = (Returns (Some (mkImage "RGB" (bgr_to_rgb (sample_frame 10))), 1, None),
                      snd (extract_frame_from_video (sample_world [sample_frame 10])
                             sample_upload 0 (initial ∅))))
    by (vm_compute; reflexivity).
  pose proof (video_tab_slider_request (sample_world [sample_frame 10])
                (sample_world [sample_frame 10]) strict_slider sample_upload
                (initial ∅) _ 1 _ Hprobe ltac:(lia)) as Hreq.
  split; [exact Hreq |].
  destruct Hreq as (_ & _ & Hraise).
  rewrite (Hraise "Slider `min_value` must be less than the `max_value`." eq_refl).
  reflexivity.
Defined.

(** X25: the warning "Could not read frames from the uploaded video" is
    shown only when the probing call came back with an image, no error and
    a negative frame count; a video without frames gets the error message
    of the extraction instead. *)
Theorem video_tab_warning w1 w2 slider uploaded_video s s' :
  video_tab w1 w2 slider uploaded_video s = (Returns tab_warning, s') ->
  exists img total,
    extract_frame_from_video w1 uploaded_video 0 s
      = (Returns (Some img, total, None), s')
    /\ total < 0.
Proof.
  unfold_tab.
  destruct (extract_frame_from_video_cases w1 uploaded_video 0 s)
    as (r & s1 & -> & Hshape).
  destruct Hshape as [(img & total & Hne & ->) | [-> | [-> | [(total & _ & ->) | (e & ->)]]]];
    cbn [truthy_opt truthy]; try (intros H; discriminate H).
  destruct (Z.gtb_spec total 0) as [Hpos | Hle].
  - destruct (slider 0 (total - 1) (total / 2)) as [k |]; [| intros H; discriminate H].
    destruct (extract_frame_from_video w2 uploaded_video k s1) as [[[[i2 t2] e2] |] s2];
      [| intros H; discriminate H].
    destruct i2; intros H; discriminate H.
  - intros H. inversion H; subst. exists img, total. split; [reflexivity | lia].
Qed.

Lemma video_tab_warning_witness :
  exists img total,
    extract_frame_from_video uncounted_world sample_upload 0 (initial ∅)
      = (Returns (Some img, total, None),
         (video_tab uncounted_world uncounted_world sample_slider sample_upload
            (initial ∅)).2)
    /\ total < 0.
Proof.
  apply (video_tab_warning uncounted_world uncounted_world sample_slider
           sample_upload (initial ∅)).
  vm_compute. reflexivity.
Defined.

(** X26: with a slider that answers within its bounds, the frame the tab
    shows was asked for with an index inside [[0, total_frames - 1]] of the
    count the probing call reported, and came back without an error. *)
Theorem video_tab_frame_in_range w1 w2 slider uploaded_video s s' image k :
  (forall lo hi value pos, slider lo hi value = Returns pos -> lo <= pos <= hi) ->
  video_tab w1 w2 slider uploaded_video s = (Returns (tab_frame image k), s') ->
  exists img total s1 total2,
    extract_frame_from_video w1 uploaded_video 0 s = (Returns (img, total, None), s1)
    /\ 0 <= k <= total - 1
    /\ extract_frame_from_video w2 uploaded_video k s1
         = (Returns (Some image, total2, None), s').
Proof.
  intros Hslider. unfold_tab.
  destruct (extract_frame_from_video_cases w1 uploaded_video 0 s)
    as (r & s1 & -> & Hshape).
  destruct Hshape as [(img & total & Hne & ->) | [-> | [-> | [(total & _ & ->) | (e & ->)]]]];
    cbn [truthy_opt truthy]; try (intros H; discriminate H).
  destruct (Z.gtb_spec total 0) as [Hpos | Hle]; [| intros H; discriminate H].
  destruct (slider 0 (total - 1) (total / 2)) as [pos |] eqn:Hpos_k;
    [| intros H; discriminate H].
  apply Hslider in Hpos_k.
  destruct (extract_frame_from_video_cases w2 uploaded_video pos s1)
    as (r2 & s2 & Hrun2 & Hshape2).
  rewrite Hrun2.
  destruct Hshape2
    as [(img2 & total2 & _ & ->) | [-> | [-> | [(total2 & _ & ->) | (e & ->)]]]];
    intros H; inversion H; subst.
  exists (Some img), total, s1, total2. split_and!; [reflexivity | lia | lia | exact Hrun2].
Qed.

Lemma video_tab_frame_in_range_witness :
  exists img total s1 total2,
    extract_frame_from_video (sample_world five_frames) sample_upload 0 (initial ∅)
      = (Returns (img, total, None), s1)
    /\ 0 <= 2 <= total - 1
    /\ extract_frame_from_video (sample_world five_frames) sample_upload 2 s1
         = (Returns (Some (mkImage "RGB" (bgr_to_rgb (sample_frame 12))), total2, None),
            (video_tab (sample_world five_frames) (sample_world five_frames)
               sample_slider sample_upload (initial ∅)).2).
Proof.
  apply (video_tab_frame_in_range (sample_world five_frames)
           (sample_world five_frames) sample_slider sample_upload (initial ∅)).
  - intros lo hi value pos. unfold sample_slider.
    destruct (Z.leb_spec lo value), (Z.leb_spec value hi); cbn;
      intros Heq; inversion Heq; subst; lia.
  - vm_compute. reflexivity.
Defined.

(** ** [load_example_images] *)

Lemma load_example_loop_ok Image_open files imgs items :
  (forall f, f ∈ files -> Image_open f = Returns (imgs f)) ->
  forall acc warnings,
    load_example_loop Image_open files items acc warnings
    = Returns (examples_found imgs files items acc,
               (warnings ++ examples_missing files items)%list).
Proof.
  intros Hopen. induction items as [| [name filename] rest IH]; intros acc warnings.
  - cbn. by rewrite app_nil_r.
  - cbn [load_example_loop examples_found foldl].
    unfold examples_missing. cbn [fmap list_fmap snd List.filter].
    case_bool_decide as Hin; cbn [negb].
    + rewrite (Hopen filename Hin). cbn. rewrite IH. reflexivity.
    + rewrite IH. cbn [map]. unfold examples_missing.
      by rewrite <- app_assoc.
Qed.

(** X27: when every example file that exists can be opened, the function
    returns, under each of the four names, the image of its file if the
    file exists and nothing otherwise; it stores no other name; and it
    warns once, in the order of the dict, for each file that is missing.
    A missing file never makes it fail. *)
Theorem load_example_images_spec Image_open files imgs :
  (forall f, f ∈ files -> Image_open f = Returns (imgs f)) ->
  exists example_images warnings,
    load_example_images Image_open files = Returns (example_images, warnings)
    /\ (forall name filename, (name, filename) ∈ image_files ->
          example_images !! name
          = if bool_decide (filename ∈ files) then Some (imgs filename) else None)
    /\ (forall name, name ∉ image_files.*1 -> example_images !! name = None)
    /\ warnings = examples_missing files image_files.
Proof.
  intros Hopen. unfold load_example_images.
  rewrite (load_example_loop_ok Image_open files imgs image_files Hopen).
  do 2 eexists. split; [reflexivity |]. split_and!; [| | reflexivity].
  - intros name filename Hin. unfold image_files in Hin.
    unfold examples_found, image_files. cbn [foldl].
    repeat (apply elem_of_cons in Hin as [Hin | Hin]);
      [| | | | by apply elem_of_nil in Hin]; simplify_eq;
      destruct (bool_decide ("glioma.jpg" ∈ files)),
        (bool_decide ("meningioma.jpg" ∈ files)),
        (bool_decide ("pituitary.jpg" ∈ files)),
        (bool_decide ("no tumor.jpg" ∈ files));
      repeat (rewrite lookup_insert; case_decide; try congruence);
      rewrite ?lookup_empty; reflexivity.
  - intros name Hnot. unfold image_files in Hnot. cbn in Hnot.
    unfold examples_found, image_files. cbn [foldl].
    destruct (bool_decide ("glioma.jpg" ∈ files)),
      (bool_decide ("meningioma.jpg" ∈ files)),
      (bool_decide ("pituitary.jpg" ∈ files)),
      (bool_decide ("no tumor.jpg" ∈ files));
      repeat (rewrite lookup_insert; case_decide;
              [exfalso; apply Hnot; subst; set_unfold; tauto |]);
      apply lookup_empty.
Qed.

Lemma load_example_images_spec_witness :
  exists example_images warnings,
    load_example_images sample_open {["glioma.jpg"; "no tumor.jpg"]}
      = Returns (example_images, warnings)
    /\ (forall name filename, (name, filename) ∈ image_files ->
          example_images !! name
          = if bool_decide (filename ∈ ({["glioma.jpg"; "no tumor.jpg"]} : gset string))
            then Some (mkImage "RGB" (sample_frame (Z.of_nat (String.length filename))))
            else None)
    /\ (forall name, name ∉ image_files.*1 -> example_images !! name = None)
    /\ warnings = examples_missing {["glioma.jpg"; "no tumor.jpg"]} image_files.
Proof.
  apply (load_example_images_spec sample_open {["glioma.jpg"; "no tumor.jpg"]}
           (fun f => mkImage "RGB" (sample_frame (Z.of_nat (String.length f))))).
  intros f Hf. reflexivity.
Defined.

Lemma load_example_loop_raises Image_open files items name filename e :
  (name, filename) ∈ items ->
  filename ∈ files ->
  Image_open filename = Raises e ->
  forall acc warnings,
    exists e', load_example_loop Image_open files items acc warnings = Raises e'.
Proof.
  intros Hin Hex Hopen. induction items as [| [n f] rest IH]; intros acc warnings.
  - by apply elem_of_nil in Hin.
  - cbn [load_example_loop]. apply elem_of_cons in Hin as [Heq | Hin].
    + inversion Heq; subst. rewrite bool_decide_eq_true_2 by assumption.
      rewrite Hopen. cbn. eauto.
    + case_bool_decide; [| by apply IH].
      destruct (Image_open f) as [img | e0]; cbn; [by apply IH | eauto].
Qed.

(** X28: the function guards against missing files only.  If one of the
    example files exists and [Image.open] raises on it, the exception
    leaves [load_example_images], and no image is returned at all. *)
Theorem load_example_images_unreadable Image_open files name filename e :
  (name, filename) ∈ image_files ->
  filename ∈ files ->
  Image_open filename = Raises e ->
  exists e', load_example_images Image_open files = Raises e'.
Proof.
  intros Hin Hex Hopen. unfold load_example_images.
  by apply (load_example_loop_raises _ _ _ name filename e).
Qed.

Lemma load_example_images_unreadable_witness :
  exists e', load_example_images corrupt_open {["pituitary.jpg"]} = Raises e'.
Proof.
  apply (load_example_images_unreadable corrupt_open {["pituitary.jpg"]}
           "Pituitary" "pituitary.jpg"
           "cannot identify image file 'pituitary.jpg'").
  - unfold image_files. set_unfold. tauto.
  - set_unfold. reflexivity.
  - reflexivity.
Defined.
